(** * Provider settings of the agent: schema validation and the settings reader

    A shallow embedding of [src/agent/src/lib/llm/settings/NemoTypes.ts]
    (the zod schemas of the persisted provider configuration and the
    [LLMSettingsReader] class that resolves the provider to use) and of the
    two handlers of [src/agent/src/sidepanel/components/Header.tsx] that use
    the configuration schema, followed by the properties of the
    provider-resolution specification checked against it.

    Conventions of the embedding.
    - A JavaScript [number] is an IEEE 754 binary64 value, here a [spec_float]
      of the Standard Library at precision 53 and maximal exponent 1024.
    - A JavaScript string is a Rocq [string]; its characters are read as code
      units below 256.
    - An untyped JavaScript value (what [JSON.parse] or a store hands back) is a
      [JSValue]; an object is the list of its own properties and a property
      read takes the first entry under the key (the keys read on such values
      are fixed, and none of them names a member of [Object.prototype]).
    - The static field of the class, the clock behind [new Date()], the calls
      of the two host APIs and the messages given to [Logging.log] are
      explicit: every method is a function from the reader state to a
      settlement, a new state and the events it emitted.
    - A property read on an object literal used as a dictionary
      ([Record<string, T>]) finds the own keys of the literal and, failing
      those, the members inherited from [Object.prototype].
    - The global [chrome] of the host is not declared, holds [undefined] or
      [null], or holds an object with or without each of the two APIs.
    - [JSON.parse], the text of a [ZodError] and [isMockLLMSettings] are not
      code of this file's source: they are variables or host fields. *)

From Stdlib Require Import Bool ZArith List String Ascii Lia.
From Stdlib Require Import SpecFloat DecimalString.
From Stdlib Require DecimalNat DecimalFacts.
Import ListNotations.

Local Open Scope string_scope.
Local Open Scope list_scope.

(** ** JavaScript numbers and the two numeric parsers *)

Module JSNumber.

Local Open Scope Z_scope.

Definition number : Type := spec_float.

Definition prec : Z := 53.
Definition emax : Z := 1024.

Definition NaN : number := S754_nan.
Definition Infinity (negative : bool) : number := S754_infinity negative.
Definition zero (negative : bool) : number := S754_zero negative.

Definition isNaN (x : number) : bool :=
  match x with S754_nan => true | _ => false end.

(** [x < y] and [x <= y] of JavaScript: false as soon as a side is NaN. *)
Definition lt (x y : number) : bool := SFltb x y.
Definition le (x y : number) : bool := SFleb x y.

(** The number nearest to [m * 10 ^ e] (ties to even), [m >= 0], with the
    sign [negative]: the value of a decimal numeral. *)
Definition of_decimal (negative : bool) (m e : Z) : number :=
  match m with
  | Zpos p =>
      if 0 <=? e
      then binary_normalize prec emax
             (cond_Zopp negative (m * 10 ^ e)) 0 false
      else SFdiv prec emax
             (S754_finite negative p 0)
             (S754_finite false (Z.to_pos (10 ^ (- e))) 0)
  | _ => zero negative
  end.

Definition of_Z (z : Z) : number := of_decimal (z <? 0) (Z.abs z) 0.

(** WhiteSpace and LineTerminator code units below 256: TAB, LF, VT, FF, CR,
    SP and NBSP. *)
Definition isWhiteSpace (c : ascii) : bool :=
  let n := Z.of_nat (nat_of_ascii c) in
  ((9 <=? n) && (n <=? 13)) || (n =? 32) || (n =? 160).

Fixpoint trimStart (s : string) : string :=
  match s with
  | String c rest => if isWhiteSpace c then trimStart rest else s
  | EmptyString => s
  end.

Definition digitValue (c : ascii) : option Z :=
  let n := Z.of_nat (nat_of_ascii c) in
  if (48 <=? n) && (n <=? 57) then Some (n - 48) else None.

(** The longest run of decimal digits at the head of [s], with [acc] and
    [count] the value and the number of the digits already read: the value,
    the number of digits and the text after them. *)
Fixpoint readDigits (s : string) (acc : Z) (count : Z) : Z * Z * string :=
  match s with
  | String c rest =>
      match digitValue c with
      | Some d => readDigits rest (10 * acc + d) (count + 1)
      | None => (acc, count, s)
      end
  | EmptyString => (acc, count, s)
  end.

(** An optional sign: whether it is a minus, and the text after it. *)
Definition readSign (s : string) : bool * string :=
  match s with
  | String "-" rest => (true, rest)
  | String "+" rest => (false, rest)
  | _ => (false, s)
  end.

(** [parseInt(s, 10)]: leading white space, a sign, then the longest run of
    decimal digits; NaN when there is none. *)
Definition parseInt10 (s : string) : number :=
  let (negative, body) := readSign (trimStart s) in
  let '(v, count, _) := readDigits body 0 0 in
  if count =? 0 then NaN else of_decimal negative v 0.

Definition isExponentIndicator (c : ascii) : bool :=
  (Ascii.eqb c "e" || Ascii.eqb c "E")%bool.

(** The exponent part at the head of [s], 0 when [s] does not start with a
    complete one. *)
Definition readExponent (s : string) : Z :=
  match s with
  | String c rest =>
      if isExponentIndicator c then
        let (negative, body) := readSign rest in
        let '(v, count, _) := readDigits body 0 0 in
        if count =? 0 then 0 else cond_Zopp negative v
      else 0
  | EmptyString => 0
  end.

(** [parseFloat(s)]: leading white space, then the longest prefix that is a
    StrDecimalLiteral; NaN when there is none. *)
Definition parseFloat (s : string) : number :=
  let (negative, body) := readSign (trimStart s) in
  if String.prefix "Infinity" body then Infinity negative else
  let '(iv, icount, afterInt) := readDigits body 0 0 in
  let '(fv, fcount, afterFrac) :=
    match afterInt with
    | String "." rest => readDigits rest 0 0
    | _ => (0, 0, afterInt)
    end in
  if icount + fcount =? 0 then NaN
  else of_decimal negative (iv * 10 ^ fcount + fv)
                  (readExponent afterFrac - fcount).

End JSNumber.

Import JSNumber.

(** ** Untyped JavaScript values *)

#[local] Set Warnings "-register-all".

Inductive JSValue : Type :=
| JUndefined
| JNull
| JBool (b : bool)
| JNum (n : number)
| JStr (s : string)
| JArr (items : list JSValue)
| JObj (fields : list (string * JSValue)).

(** ToBoolean: what [!v] and [v || w] test. *)
Definition truthy (v : JSValue) : bool :=
  match v with
  | JUndefined | JNull => false
  | JBool b => b
  | JNum n =>
      match n with
      | S754_zero _ | S754_nan => false
      | _ => true
      end
  | JStr s => negb (String.eqb s "")
  | JArr _ | JObj _ => true
  end.

Fixpoint lookup {A : Type} (k : string) (fields : list (string * A))
  : option A :=
  match fields with
  | [] => None
  | (k', v) :: rest => if String.eqb k k' then Some v else lookup k rest
  end.

(** [v?.[k]]: the property [k] of [v], [undefined] when [v] has none. *)
Definition getProp (v : JSValue) (k : string) : JSValue :=
  match v with
  | JObj fields =>
      match lookup k fields with
      | Some x => x
      | None => JUndefined
      end
  | _ => JUndefined
  end.

(** [s || d] on a possibly missing string, as in [process.env.X || d]. *)
Definition orDefault (s : option string) (d : string) : string :=
  match s with
  | Some x => if String.eqb x "" then d else x
  | None => d
  end.

(** ** The data model (NemoTypes.ts) *)

Inductive NemoProviderType : Type :=
| nemo
| openai
| openai_compatible
| anthropic
| google_gemini
| ollama
| openrouter
| custom.

(** The members of [NemoProviderTypeSchema], in the order of the source. *)
Definition NemoProviderTypeMembers : list (string * NemoProviderType) :=
  [ ("nemo", nemo);
    ("openai", openai);
    ("openai_compatible", openai_compatible);
    ("anthropic", anthropic);
    ("google_gemini", google_gemini);
    ("ollama", ollama);
    ("openrouter", openrouter);
    ("custom", custom) ].

Definition typeName (t : NemoProviderType) : string :=
  match t with
  | nemo => "nemo"
  | openai => "openai"
  | openai_compatible => "openai_compatible"
  | anthropic => "anthropic"
  | google_gemini => "google_gemini"
  | ollama => "ollama"
  | openrouter => "openrouter"
  | custom => "custom"
  end.

Record ProviderCapabilities : Type := {
  supportsImages : option bool
}.

Record ModelConfig : Type := {
  contextWindow : option number;
  temperature : option number
}.

Record NemoProvider : Type := {
  id : string;
  name : string;
  type : NemoProviderType;
  isDefault : bool;
  isBuiltIn : bool;
  baseUrl : option string;
  apiKey : option string;
  modelId : option string;
  capabilities : option ProviderCapabilities;
  modelConfig : option ModelConfig;
  createdAt : string;
  updatedAt : string
}.

Record NemoProvidersConfig : Type := {
  defaultProviderId : string;
  providers : list NemoProvider
}.

(** The preference object handed to the callback of
    [chrome.browserOS.getPref]. *)
Record NemoPrefObject : Type := {
  key : string;
  prefType : string;
  value : JSValue
}.

(** [NEMO_PREFERENCE_KEYS.PROVIDERS], the well-known preference key *)
Definition PROVIDERS : string := "nemo.providers".

(** [{ ...p, isDefault: b }] *)
Definition withIsDefault (p : NemoProvider) (b : bool) : NemoProvider :=
  {| id := id p; name := name p; type := type p;
     isDefault := b; isBuiltIn := isBuiltIn p;
     baseUrl := baseUrl p; apiKey := apiKey p; modelId := modelId p;
     capabilities := capabilities p; modelConfig := modelConfig p;
     createdAt := createdAt p; updatedAt := updatedAt p |}.

(** ** The zod combinators the schemas are built from

    A schema maps an untyped value to its typed output, [None] when [parse]
    throws a [ZodError]. *)

Module Zod.

Definition Schema (A : Type) : Type := JSValue -> option A.

Definition bind {A B : Type} (x : option A) (f : A -> option B) : option B :=
  match x with
  | Some a => f a
  | None => None
  end.

Definition string : Schema String.string :=
  fun v => match v with JStr s => Some s | _ => None end.

Definition boolean : Schema bool :=
  fun v => match v with JBool b => Some b | _ => None end.

(** [z.number()] accepts a number that is not NaN. *)
Definition number : Schema JSNumber.number :=
  fun v =>
    match v with
    | JNum n => if isNaN n then None else Some n
    | _ => None
    end.

(** [.min(bound)] and [.max(bound)], both inclusive: the value is refused
    when it is below, respectively above, the bound. *)
Definition min (s : Schema JSNumber.number) (bound : JSNumber.number)
  : Schema JSNumber.number :=
  fun v => bind (s v) (fun n => if lt n bound then None else Some n).

Definition max (s : Schema JSNumber.number) (bound : JSNumber.number)
  : Schema JSNumber.number :=
  fun v => bind (s v) (fun n => if lt bound n then None else Some n).

(** [z.enum([...])]: a string that is one of the members. *)
Definition enum {A : Type} (members : list (String.string * A)) : Schema A :=
  fun v => match v with JStr s => lookup s members | _ => None end.

(** [.optional()]: [undefined] (an absent key reads as [undefined]) is
    accepted as it is. *)
Definition optional {A : Type} (s : Schema A) : Schema (option A) :=
  fun v =>
    match v with
    | JUndefined => Some None
    | _ => bind (s v) (fun a => Some (Some a))
    end.

Fixpoint each {A : Type} (s : Schema A) (items : list JSValue)
  : option (list A) :=
  match items with
  | [] => Some []
  | v :: rest =>
      bind (s v) (fun a => bind (each s rest) (fun l => Some (a :: l)))
  end.

Definition array {A : Type} (s : Schema A) : Schema (list A) :=
  fun v => match v with JArr items => each s items | _ => None end.

(** [z.union([a, b])]: the first of the two that accepts the value. *)
Definition union {A B : Type} (a : Schema A) (b : Schema B)
  : Schema (A + B) :=
  fun v =>
    match a v with
    | Some x => Some (inl x)
    | None => bind (b v) (fun y => Some (inr y))
    end.

Definition transform {A B : Type} (s : Schema A) (f : A -> B) : Schema B :=
  fun v => bind (s v) (fun a => Some (f a)).

(** [a.pipe(b)] where [a] outputs a number: the output of [a] is the input
    of [b]. *)
Definition pipe {B : Type} (a : Schema JSNumber.number) (b : Schema B)
  : Schema B :=
  fun v => bind (a v) (fun n => b (JNum n)).

(** [z.object({...})] accepts an object (not [null], not an array); [shape]
    reads the declared keys from it, the others are dropped. *)
Definition object {A : Type} (shape : (String.string -> JSValue) -> option A)
  : Schema A :=
  fun v =>
    match v with
    | JObj _ => shape (getProp v)
    | _ => None
    end.

End Zod.

Notation "x <~ c ;; k" := (Zod.bind c (fun x => k))
  (at level 61, c at next level, right associativity).

(** ** The schemas *)

Definition NemoProviderTypeSchema : Zod.Schema NemoProviderType :=
  Zod.enum NemoProviderTypeMembers.

Definition ProviderCapabilitiesSchema : Zod.Schema ProviderCapabilities :=
  Zod.object (fun get =>
    si <~ Zod.optional Zod.boolean (get "supportsImages") ;;
    Some {| supportsImages := si |}).

(** The two [transform] callbacks of [ModelConfigSchema]. *)
Definition contextWindowOf (val : number + string) : number :=
  match val with
  | inr s => parseInt10 s
  | inl n => n
  end.

Definition temperatureOf (val : number + string) : number :=
  match val with
  | inr s => parseFloat s
  | inl n => n
  end.

Definition contextWindowSchema : Zod.Schema (option number) :=
  Zod.optional
    (Zod.transform (Zod.union Zod.number Zod.string) contextWindowOf).

(** The temperature after coercion: what enters the [pipe]. *)
Definition temperatureCoerced : Zod.Schema number :=
  Zod.transform (Zod.union Zod.number Zod.string) temperatureOf.

Definition temperatureSchema : Zod.Schema (option number) :=
  Zod.optional
    (Zod.pipe temperatureCoerced
       (Zod.max (Zod.min Zod.number (of_Z 0)) (of_Z 2))).

Definition ModelConfigSchema : Zod.Schema ModelConfig :=
  Zod.object (fun get =>
    cw <~ contextWindowSchema (get "contextWindow") ;;
    t <~ temperatureSchema (get "temperature") ;;
    Some {| contextWindow := cw; temperature := t |}).

Definition NemoProviderSchema : Zod.Schema NemoProvider :=
  Zod.object (fun get =>
    id' <~ Zod.string (get "id") ;;
    name' <~ Zod.string (get "name") ;;
    type' <~ NemoProviderTypeSchema (get "type") ;;
    isDefault' <~ Zod.boolean (get "isDefault") ;;
    isBuiltIn' <~ Zod.boolean (get "isBuiltIn") ;;
    baseUrl' <~ Zod.optional Zod.string (get "baseUrl") ;;
    apiKey' <~ Zod.optional Zod.string (get "apiKey") ;;
    modelId' <~ Zod.optional Zod.string (get "modelId") ;;
    capabilities' <~
      Zod.optional ProviderCapabilitiesSchema (get "capabilities") ;;
    modelConfig' <~ Zod.optional ModelConfigSchema (get "modelConfig") ;;
    createdAt' <~ Zod.string (get "createdAt") ;;
    updatedAt' <~ Zod.string (get "updatedAt") ;;
    Some {| id := id'; name := name'; type := type';
            isDefault := isDefault'; isBuiltIn := isBuiltIn';
            baseUrl := baseUrl'; apiKey := apiKey'; modelId := modelId';
            capabilities := capabilities'; modelConfig := modelConfig';
            createdAt := createdAt'; updatedAt := updatedAt' |}).

Definition NemoProvidersConfigSchema : Zod.Schema NemoProvidersConfig :=
  Zod.object (fun get =>
    d <~ Zod.string (get "defaultProviderId") ;;
    ps <~ Zod.array NemoProviderSchema (get "providers") ;;
    Some {| defaultProviderId := d; providers := ps |}).

(** ** The host of the reader *)

(** What a call of a host API does: it calls back with a result, or throws. *)
Inductive Reply (A : Type) : Type :=
| Calls (result : A)
| Throws (reason : string).

Arguments Calls {A} result.
Arguments Throws {A} reason.

(** What the callback of [getPref] observes: [chrome.runtime.lastError] (its
    message when set) and the preference object. *)
Record PrefCallback : Type := {
  lastError : option string;
  pref : option NemoPrefObject
}.

(** The two APIs that the reader looks for on the object [chrome]. *)
Record Chrome : Type := {
  (** [chrome.browserOS?.getPref], [None] when the capability is absent *)
  browserOS_getPref : option (string -> Reply PrefCallback);
  (** [chrome.storage?.local?.get], [None] when it is absent *)
  storage_local_get : option (string -> Reply JSValue)
}.

(** A global identifier: not declared (reading it throws a ReferenceError),
    holding [undefined] or [null], or holding a value. *)
Inductive Global (A : Type) : Type :=
| Undeclared
| Nullish
| Bound (value : A).

Arguments Undeclared {A}.
Arguments Nullish {A}.
Arguments Bound {A} value.

Record Host : Type := {
  (** [isMockLLMSettings()] of the configuration module *)
  isMockLLMSettings : bool;
  (** [process.env] *)
  MOCK_PROVIDER_TYPE : option string;
  OPENAI_API_KEY : option string;
  ANTHROPIC_API_KEY : option string;
  GOOGLE_API_KEY : option string;
  (** the text of the n-th [new Date().toISOString()] of the process *)
  toISOString : nat -> string;
  (** the global [chrome] *)
  chrome : Global Chrome
}.

(** [chrome?.browserOS?.getPref] once [chrome] was read: [None] when the
    capability is absent, also when [chrome] holds no object. *)
Definition getPref (h : Host) : option (string -> Reply PrefCallback) :=
  match chrome h with
  | Bound c => browserOS_getPref c
  | _ => None
  end.

(** [chrome.storage?.local?.get] on a [chrome] that holds an object, [None]
    when it is absent. *)
Definition storageLocalGet (h : Host) : option (string -> Reply JSValue) :=
  match chrome h with
  | Bound c => storage_local_get c
  | _ => None
  end.

Arguments getPref : simpl never.
Arguments storageLocalGet : simpl never.

(** ** Effects: state, settlement and log *)

Record State : Type := {
  (** [private static mockProvider] *)
  mockProvider : option NemoProvider;
  (** the number of clock reads made so far *)
  ticks : nat
}.

(** One call of [Logging.log(source, message, level?)]. *)
Record LogEntry : Type := {
  source : string;
  message : string;
  level : option string
}.

(** What a method does that the outside can observe, in order: the host APIs
    it calls (with the key it passes) and what it logs. *)
Inductive Event : Type :=
| Logged (entry : LogEntry)
| CalledGetPref (prefName : string)
| CalledStorageGet (storageKey : string).

(** How a (possibly asynchronous) call ends: it returns or fulfils, it throws
    or rejects with an error (here its message), or its promise never
    settles. *)
Inductive Settled (A : Type) : Type :=
| Fulfilled (result : A)
| Rejected (reason : string)
| Pending.

Arguments Fulfilled {A} result.
Arguments Rejected {A} reason.
Arguments Pending {A}.

Definition Eff (A : Type) : Type := State -> Settled A * State * list Event.

Definition outcome {A : Type} (r : Settled A * State * list Event)
  : Settled A := fst (fst r).
Definition finalState {A : Type} (r : Settled A * State * list Event)
  : State := snd (fst r).
Definition events {A : Type} (r : Settled A * State * list Event)
  : list Event := snd r.

Definition isHostCall (e : Event) : bool :=
  match e with
  | Logged _ => false
  | CalledGetPref _ | CalledStorageGet _ => true
  end.

(** The host API calls among the events, in order. *)
Definition hostCalls {A : Type} (r : Settled A * State * list Event)
  : list Event := filter isHostCall (events r).

Module Eff.

Definition ret {A : Type} (a : A) : Eff A :=
  fun s => (Fulfilled a, s, []).

Definition throw {A : Type} (reason : string) : Eff A :=
  fun s => (Rejected reason, s, []).

Definition never {A : Type} : Eff A :=
  fun s => (Pending, s, []).

Definition bind {A B : Type} (m : Eff A) (f : A -> Eff B) : Eff B :=
  fun s =>
    let '(r, s1, out1) := m s in
    match r with
    | Fulfilled a => let '(r2, s2, out2) := f a s1 in (r2, s2, out1 ++ out2)
    | Rejected e => (Rejected e, s1, out1)
    | Pending => (Pending, s1, out1)
    end.

(** [try { m } catch (error) { handler(errorMessage) }] *)
Definition tryCatch {A : Type} (m : Eff A) (handler : string -> Eff A)
  : Eff A :=
  fun s =>
    let '(r, s1, out1) := m s in
    match r with
    | Rejected e =>
        let '(r2, s2, out2) := handler e s1 in (r2, s2, out1 ++ out2)
    | _ => (r, s1, out1)
    end.

Definition emit (e : Event) : Eff unit :=
  fun s => (Fulfilled tt, s, [e]).

Definition log (src msg : string) (lvl : option string) : Eff unit :=
  emit (Logged {| source := src; message := msg; level := lvl |}).

Definition getMock : Eff (option NemoProvider) :=
  fun s => (Fulfilled (mockProvider s), s, []).

Definition setMock (p : option NemoProvider) : Eff unit :=
  fun s => (Fulfilled tt, {| mockProvider := p; ticks := ticks s |}, []).

(** [new Date().toISOString()] *)
Definition now (h : Host) : Eff string :=
  fun s =>
    (Fulfilled (toISOString h (ticks s)),
     {| mockProvider := mockProvider s; ticks := S (ticks s) |}, []).

End Eff.

Notation "x <- c ;; k" := (Eff.bind c (fun x => k))
  (at level 61, c at next level, right associativity).
Notation "c ;; k" := (Eff.bind c (fun _ => k))
  (at level 61, right associativity).

(** ** [Partial<NemoProvider>]: each key is given or not *)

Module Partial.

Record t : Type := {
  id : option string;
  name : option string;
  type : option NemoProviderType;
  isDefault : option bool;
  isBuiltIn : option bool;
  baseUrl : option (option string);
  apiKey : option (option string);
  modelId : option (option string);
  capabilities : option (option ProviderCapabilities);
  modelConfig : option (option ModelConfig);
  createdAt : option string;
  updatedAt : option string
}.

Definition empty : t :=
  {| id := None; name := None; type := None; isDefault := None;
     isBuiltIn := None; baseUrl := None; apiKey := None; modelId := None;
     capabilities := None; modelConfig := None;
     createdAt := None; updatedAt := None |}.

End Partial.

Definition given {A : Type} (override : option A) (base : A) : A :=
  match override with
  | Some a => a
  | None => base
  end.

(** [{ ...base, ...provider }] *)
Definition spread (base : NemoProvider) (provider : Partial.t) : NemoProvider :=
  {| id := given (Partial.id provider) (id base);
     name := given (Partial.name provider) (name base);
     type := given (Partial.type provider) (type base);
     isDefault := given (Partial.isDefault provider) (isDefault base);
     isBuiltIn := given (Partial.isBuiltIn provider) (isBuiltIn base);
     baseUrl := given (Partial.baseUrl provider) (baseUrl base);
     apiKey := given (Partial.apiKey provider) (apiKey base);
     modelId := given (Partial.modelId provider) (modelId base);
     capabilities := given (Partial.capabilities provider) (capabilities base);
     modelConfig := given (Partial.modelConfig provider) (modelConfig base);
     createdAt := given (Partial.createdAt provider) (createdAt base);
     updatedAt := given (Partial.updatedAt provider) (updatedAt base) |}.

(** ** What the default-provider query can hand back

    [getMockProvider] ends in [mockProviders[mockType] || ...], a property
    read on an object literal: besides the five keys of the literal it finds
    the members that every object inherits from [Object.prototype]. Those are
    functions, and for "__proto__" the prototype object itself: truthy
    values, which the [||] lets through and which the callers hand on. *)

(** The property names of [Object.prototype] (ECMA-262, with its annex B);
    what a program adds to the prototype is outside the model. *)
Definition ObjectPrototypeKeys : list string :=
  [ "constructor"; "hasOwnProperty"; "isPrototypeOf"; "propertyIsEnumerable";
    "toLocaleString"; "toString"; "valueOf"; "__proto__";
    "__defineGetter__"; "__defineSetter__";
    "__lookupGetter__"; "__lookupSetter__" ].

(** [k in Object.prototype] *)
Definition inherited (k : string) : bool :=
  existsb (String.eqb k) ObjectPrototypeKeys.

(** A value that [read] can fulfil with: a provider, or the member of
    [Object.prototype] of the given name. *)
Inductive Resolved : Type :=
| Provider (p : NemoProvider)
| Inherited (key : string).

Coercion Provider : NemoProvider >-> Resolved.

(** The type expected of a result is known before the result is read, so
    that a provider is read as a [Resolved] where one is expected. *)
Arguments Fulfilled {A} & result.
Arguments pair {A B} & a b.

(** The text of [`${provider.name}`]. The member "constructor" is the function
    [Object]; the other members are functions named as their key, but for
    "__proto__", the prototype object, which has no [name]. *)
Definition nameText (r : Resolved) : string :=
  match r with
  | Provider p => name p
  | Inherited k =>
      if String.eqb k "constructor" then "Object"
      else if String.eqb k "__proto__" then "undefined"
      else k
  end.

(** The text of [`${provider.type}`]. *)
Definition typeText (r : Resolved) : string :=
  match r with
  | Provider p => typeName (type p)
  | Inherited _ => "undefined"
  end.

(** ** The settings reader (class [LLMSettingsReader]) *)

Definition DEFAULT_OPENAI_MODEL : string := "gpt-4o".
Definition DEFAULT_ANTHROPIC_MODEL : string := "claude-3-5-sonnet-latest".
Definition DEFAULT_GEMINI_MODEL : string := "gemini-2.0-flash".
Definition DEFAULT_OLLAMA_MODEL : string := "qwen3:4b".
Definition DEFAULT_OLLAMA_BASE_URL : string := "http://localhost:11434".

Definition LLMSettingsReader : string := "LLMSettingsReader".

(** The object literal of [getDefaultNemoProvider], given its two
    timestamps. *)
Definition defaultNemoProvider (created updated : string) : NemoProvider :=
  {| id := "nemo"; name := "Nemo"; type := nemo;
     isDefault := true; isBuiltIn := true;
     baseUrl := None; apiKey := None; modelId := None;
     capabilities := None; modelConfig := None;
     createdAt := created; updatedAt := updated |}.

(** [{ contextWindow: cw, temperature: 0.7 }] *)
Definition mockModelConfig (cw : Z) : ModelConfig :=
  {| contextWindow := Some (of_Z cw);
     temperature := Some (of_decimal false 7 (-1)) |}.

(** [config.providers.find(p => p.id === config.defaultProviderId)] *)
Definition findDefault (defaultId : string) (ps : list NemoProvider)
  : option NemoProvider :=
  find (fun p => String.eqb (id p) defaultId) ps.

(** [config.providers.map(p => ({ ...p, isDefault: p.id ===
    config.defaultProviderId }))] *)
Definition normalizeIsDefault (config : NemoProvidersConfig)
  : NemoProvidersConfig :=
  {| defaultProviderId := defaultProviderId config;
     providers :=
       map (fun p => withIsDefault p
                       (String.eqb (id p) (defaultProviderId config)))
           (providers config) |}.

Section Reader.

(** [JSON.parse(v)]: the parsed value, or the message of the error it
    throws. *)
Variable JSON_parse : JSValue -> string + JSValue.

(** The message of the [ZodError] that [NemoProvidersConfigSchema.parse]
    throws on a value it refuses. *)
Variable zodErrorMessage : JSValue -> string.

Variable h : Host.

Definition jsonParse (v : JSValue) : Eff JSValue :=
  match JSON_parse v with
  | inr parsed => Eff.ret parsed
  | inl msg => Eff.throw msg
  end.

(** [NemoProvidersConfigSchema.parse(v)] *)
Definition schemaParse (v : JSValue) : Eff NemoProvidersConfig :=
  match NemoProvidersConfigSchema v with
  | Some config => Eff.ret config
  | None => Eff.throw (zodErrorMessage v)
  end.

(** [await new Promise(resolve => chrome.storage?.local?.get(key, result =>
    resolve(result)))]: a throw of the executor rejects the promise, as when
    [chrome] is not declared or holds no object (a TypeError, whose text the
    readers do not use); nothing resolves the promise when the store API is
    absent. *)
Definition storageGet (k : string) : Eff JSValue :=
  match chrome h with
  | Undeclared => Eff.throw "chrome is not defined"
  | Nullish =>
      Eff.throw "Cannot read properties of undefined (reading 'storage')"
  | Bound _ =>
      match storageLocalGet h with
      | None => Eff.never
      | Some get =>
          Eff.emit (CalledStorageGet k) ;;
          match get k with
          | Calls stored => Eff.ret stored
          | Throws msg => Eff.throw msg
          end
      end
  end.

(** [new Promise(resolve => browserOS.getPref(name, pref => ...))] up to the
    entry of the callback: a throw of [getPref] rejects the promise. *)
Definition prefGet (browserOS_getPref : string -> Reply PrefCallback)
  (prefName : string) : Eff PrefCallback :=
  Eff.emit (CalledGetPref prefName) ;;
  match browserOS_getPref prefName with
  | Calls cb => Eff.ret cb
  | Throws msg => Eff.throw msg
  end.

Definition getDefaultNemoProvider : Eff NemoProvider :=
  created <- Eff.now h ;;
  updated <- Eff.now h ;;
  Eff.ret (defaultNemoProvider created updated).

Definition setMockProvider (provider : Partial.t) : Eff unit :=
  if negb (isMockLLMSettings h) then
    Eff.log LLMSettingsReader
      "setMockProvider is only available in development mode"
      (Some "warning")
  else
    base <- getDefaultNemoProvider ;;
    Eff.setMock (Some (spread base provider)) ;;
    Eff.log LLMSettingsReader
      ("Mock provider set: " ++
       match Partial.name provider with
       | Some n =>
           if negb (String.eqb n "") then n
           else match Partial.type provider with
                | Some t => typeName t
                | None => "undefined"
                end
       | None =>
           match Partial.type provider with
           | Some t => typeName t
           | None => "undefined"
           end
       end)
      None.

Definition getMockProvider : Eff Resolved :=
  custom_mock <- Eff.getMock ;;
  match custom_mock with
  | Some p => Eff.ret (Provider p)
  | None =>
      let mockType := orDefault (MOCK_PROVIDER_TYPE h) "nemo" in
      nemo' <- getDefaultNemoProvider ;;
      openai_created <- Eff.now h ;;
      openai_updated <- Eff.now h ;;
      anthropic_created <- Eff.now h ;;
      anthropic_updated <- Eff.now h ;;
      gemini_created <- Eff.now h ;;
      gemini_updated <- Eff.now h ;;
      ollama_created <- Eff.now h ;;
      ollama_updated <- Eff.now h ;;
      let mockProviders : list (string * NemoProvider) :=
        [ ("nemo", nemo');
          ("openai",
           {| id := "mock_openai"; name := "Mock OpenAI"; type := openai;
              isDefault := true; isBuiltIn := false;
              baseUrl := Some "https://api.openai.com/v1";
              apiKey := Some (orDefault (OPENAI_API_KEY h) "mock-key");
              modelId := Some DEFAULT_OPENAI_MODEL;
              capabilities := Some {| supportsImages := Some true |};
              modelConfig := Some (mockModelConfig 128000);
              createdAt := openai_created;
              updatedAt := openai_updated |});
          ("anthropic",
           {| id := "mock_anthropic"; name := "Mock Anthropic";
              type := anthropic;
              isDefault := true; isBuiltIn := false;
              baseUrl := Some "https://api.anthropic.com";
              apiKey := Some (orDefault (ANTHROPIC_API_KEY h) "mock-key");
              modelId := Some DEFAULT_ANTHROPIC_MODEL;
              capabilities := Some {| supportsImages := Some true |};
              modelConfig := Some (mockModelConfig 200000);
              createdAt := anthropic_created;
              updatedAt := anthropic_updated |});
          ("gemini",
           {| id := "mock_gemini"; name := "Mock Gemini";
              type := google_gemini;
              isDefault := true; isBuiltIn := false;
              baseUrl := None;
              apiKey := Some (orDefault (GOOGLE_API_KEY h) "mock-key");
              modelId := Some DEFAULT_GEMINI_MODEL;
              capabilities := Some {| supportsImages := Some true |};
              modelConfig := Some (mockModelConfig 1000000);
              createdAt := gemini_created;
              updatedAt := gemini_updated |});
          ("ollama",
           {| id := "mock_ollama"; name := "Mock Ollama"; type := ollama;
              isDefault := true; isBuiltIn := false;
              baseUrl := Some DEFAULT_OLLAMA_BASE_URL;
              apiKey := None;
              modelId := Some DEFAULT_OLLAMA_MODEL;
              capabilities := Some {| supportsImages := Some false |};
              modelConfig := Some (mockModelConfig 4096);
              createdAt := ollama_created;
              updatedAt := ollama_updated |}) ] in
      match lookup mockType mockProviders with
      | Some p => Eff.ret (Provider p)
      | None =>
          if inherited mockType then Eff.ret (Inherited mockType)
          else
            p <- getDefaultNemoProvider ;;
            Eff.ret (Provider p)
      end
  end.

(** The two branches of [readFromNemo] that give up: the mock provider in
    development mode, [null] otherwise. *)
Definition mockOrNull (why : string) : Eff (option Resolved) :=
  if isMockLLMSettings h then
    Eff.log LLMSettingsReader why (Some "warning") ;;
    p <- getMockProvider ;;
    Eff.ret (Some p)
  else Eff.ret None.

(** [NemoProvidersConfigSchema.parse(typeof raw === 'string' ?
    JSON.parse(raw) : raw)] *)
Definition parseRaw (raw : JSValue) : Eff NemoProvidersConfig :=
  parsed <- match raw with
            | JStr _ => jsonParse raw
            | _ => Eff.ret raw
            end ;;
  schemaParse parsed.

(** [pref?.value] *)
Definition prefValue (cb : PrefCallback) : JSValue :=
  match pref cb with
  | Some o => value o
  | None => JUndefined
  end.

(** [const browserOS = (chrome as any)?.browserOS] reads the identifier
    [chrome]: where it is not declared the method throws a ReferenceError
    there, and its promise rejects. *)
Definition readFromNemo : Eff (option Resolved) :=
  match chrome h with
  | Undeclared => Eff.throw "chrome is not defined"
  | _ =>
  match getPref h with
  | None =>
      Eff.tryCatch
        (stored <- storageGet PROVIDERS ;;
         let raw := getProp stored PROVIDERS in
         if negb (truthy raw) then
           mockOrNull "No stored providers found, using mock provider"
         else
           config <- parseRaw raw ;;
           Eff.ret (option_map Provider
                      (findDefault (defaultProviderId config)
                                   (providers config))))
        (fun _ => mockOrNull "Storage read failed, using mock provider")
  | Some browserOS_getPref =>
      cb <- prefGet browserOS_getPref PROVIDERS ;;
      match lastError cb with
      | Some msg =>
          Eff.log LLMSettingsReader
            ("Failed to read preference: " ++ msg) (Some "warning") ;;
          Eff.ret None
      | None =>
          if negb (truthy (prefValue cb)) then
            Eff.log LLMSettingsReader
              "No providers configuration found" (Some "warning") ;;
            Eff.ret None
          else
            Eff.tryCatch
              (parsed <- jsonParse (prefValue cb) ;;
               config <- schemaParse parsed ;;
               let config := normalizeIsDefault config in
               match findDefault (defaultProviderId config)
                                 (providers config) with
               | None =>
                   Eff.log LLMSettingsReader
                     "Default provider not found in config"
                     (Some "warning") ;;
                   Eff.ret None
               | Some defaultProvider =>
                   Eff.ret (Some (Provider defaultProvider))
               end)
              (fun errorMessage =>
                 Eff.log LLMSettingsReader
                   ("Failed to parse providers config: " ++ errorMessage)
                   (Some "error") ;;
                 Eff.ret None)
      end
  end
  end.

Definition readProvidersConfig : Eff (option NemoProvidersConfig) :=
  match chrome h with
  | Undeclared => Eff.throw "chrome is not defined"
  | _ =>
  match getPref h with
  | None =>
      Eff.tryCatch
        (stored <- storageGet PROVIDERS ;;
         let raw := getProp stored PROVIDERS in
         if negb (truthy raw) then Eff.ret None
         else
           config <- parseRaw raw ;;
           Eff.ret (Some config))
        (fun _ => Eff.ret None)
  | Some browserOS_getPref =>
      cb <- prefGet browserOS_getPref PROVIDERS ;;
      match lastError cb with
      | Some _ => Eff.ret None
      | None =>
          if negb (truthy (prefValue cb)) then Eff.ret None
          else
            Eff.tryCatch
              (parsed <- jsonParse (prefValue cb) ;;
               config <- schemaParse parsed ;;
               Eff.ret (Some (normalizeIsDefault config)))
              (fun _ => Eff.ret None)
      end
  end
  end.

(** [read()]: the public "default provider" query. *)
Definition read : Eff Resolved :=
  found <-
    Eff.tryCatch
      (Eff.log LLMSettingsReader
         "Reading provider settings from Nemo preferences" None ;;
       provider <- readFromNemo ;;
       match provider with
       | Some p =>
           Eff.log LLMSettingsReader
             ("Provider loaded: " ++ nameText p ++ " (" ++ typeText p ++ ")")
             None ;;
           Eff.ret (Some p)
       | None => Eff.ret None
       end)
      (fun errorMessage =>
         Eff.log LLMSettingsReader
           ("Failed to read settings: " ++ errorMessage) (Some "error") ;;
         Eff.ret None) ;;
  match found with
  | Some p => Eff.ret p
  | None =>
      defaultProvider <- getDefaultNemoProvider ;;
      Eff.log LLMSettingsReader "Using default Nemo provider" None ;;
      Eff.ret (Provider defaultProvider)
  end.

Definition lengthText (n : nat) : string :=
  NilEmpty.string_of_uint (Nat.to_uint n).

(** [readAllProviders()]: the public "full configuration" query. *)
Definition readAllProviders : Eff NemoProvidersConfig :=
  found <-
    Eff.tryCatch
      (config <- readProvidersConfig ;;
       match config with
       | Some c =>
           Eff.log LLMSettingsReader
             ("Loaded " ++ lengthText (List.length (providers c)) ++ " providers")
             None ;;
           Eff.ret (Some c)
       | None => Eff.ret None
       end)
      (fun errorMessage =>
         Eff.log LLMSettingsReader
           ("Failed to read providers: " ++ errorMessage) (Some "error") ;;
         Eff.ret None) ;;
  match found with
  | Some c => Eff.ret c
  | None =>
      defaultProvider <- getDefaultNemoProvider ;;
      Eff.ret {| defaultProviderId := "nemo";
                 providers := [defaultProvider] |}
  end.

End Reader.

(** * Sample inputs *)

(** A persisted provider object: [id], [name], the persisted [isDefault] flag
    and further keys. *)
Definition providerValue (i n : string) (d : bool)
  (more : list (string * JSValue)) : JSValue :=
  JObj ([ ("id", JStr i); ("name", JStr n); ("type", JStr "openai");
          ("isDefault", JBool d); ("isBuiltIn", JBool false);
          ("apiKey", JStr "sk-live");
          ("createdAt", JStr "2025-01-01T00:00:00.000Z");
          ("updatedAt", JStr "2025-01-02T00:00:00.000Z") ] ++ more).

Definition configValue (d : string) (ps : list JSValue) : JSValue :=
  JObj [ ("defaultProviderId", JStr d); ("providers", JArr ps) ].

(** The typed provider that [providerValue i n d []] validates to. *)
Definition providerOf (i n : string) (d : bool) : NemoProvider :=
  {| id := i; name := n; type := openai; isDefault := d; isBuiltIn := false;
     baseUrl := None; apiKey := Some "sk-live"; modelId := None;
     capabilities := None; modelConfig := None;
     createdAt := "2025-01-01T00:00:00.000Z";
     updatedAt := "2025-01-02T00:00:00.000Z" |}.

(** The text [s] with every apostrophe replaced by a double quote: JSON texts
    are written with apostrophes below. *)
Fixpoint jsonText (s : string) : string :=
  match s with
  | String c rest =>
      String (if Ascii.eqb c "'" then ascii_of_nat 34 else c) (jsonText rest)
  | EmptyString => EmptyString
  end.

(** [JSON.parse] on the texts of [table], a syntax error elsewhere: the runs
    below apply it to the texts of the table and to texts that are not JSON. *)
Definition jsonTable (table : list (string * JSValue))
  : JSValue -> string + JSValue :=
  fun v =>
    match v with
    | JStr text =>
        match lookup text table with
        | Some parsed => inr parsed
        | None => inl "Unexpected token in JSON"
        end
    | _ => inl "Unexpected token in JSON"
    end.

Definition zodText : JSValue -> string := fun _ => "Invalid input".

Definition clockText (n : nat) : string := "t" ++ lengthText n.

(** A preference API that knows the one preference [PROVIDERS]. *)
Definition prefApi (cb : PrefCallback) : string -> Reply PrefCallback :=
  fun prefName =>
    if String.eqb prefName PROVIDERS then Calls cb
    else Calls {| lastError := Some "Preference not found"; pref := None |}.

Definition prefHolding (v : JSValue) : PrefCallback :=
  {| lastError := None;
     pref := Some {| key := PROVIDERS; prefType := "string"; value := v |} |}.

(** [chrome.storage.local.get(k, ...)] over the stored [items]: the object
    with the entry of [k], when there is one. *)
Definition storageApi (items : list (string * JSValue))
  : string -> Reply JSValue :=
  fun k =>
    Calls (JObj match lookup k items with
                | Some v => [(k, v)]
                | None => []
                end).

(** A host by its development switch, its [MOCK_PROVIDER_TYPE] and its
    global [chrome]. *)
Definition hostWith (dev : bool) (mockType : option string)
  (global : Global Chrome) : Host :=
  {| isMockLLMSettings := dev;
     MOCK_PROVIDER_TYPE := mockType;
     OPENAI_API_KEY := None;
     ANTHROPIC_API_KEY := None;
     GOOGLE_API_KEY := None;
     toISOString := clockText;
     chrome := global |}.

(** A host whose [chrome] is an object with the given APIs. *)
Definition hostOf (dev : bool) (mockType : option string)
  (prefs : option (string -> Reply PrefCallback))
  (storage : option (string -> Reply JSValue)) : Host :=
  hostWith dev mockType
    (Bound {| browserOS_getPref := prefs; storage_local_get := storage |}).

Definition start : State := {| mockProvider := None; ticks := 0 |}.

(** *** A preference whose default id is the id of no provider *)

Definition danglingText : string :=
  jsonText
    ("{'defaultProviderId':'ghost','providers':[{'id':'p1','name':'Work',"
     ++ "'type':'openai','isDefault':true,'isBuiltIn':false,"
     ++ "'apiKey':'sk-live','createdAt':'2025-01-01T00:00:00.000Z',"
     ++ "'updatedAt':'2025-01-02T00:00:00.000Z'}]}").

Definition danglingValue : JSValue :=
  configValue "ghost" [providerValue "p1" "Work" true []].

Definition danglingConfig : NemoProvidersConfig :=
  {| defaultProviderId := "ghost"; providers := [providerOf "p1" "Work" true] |}.

Definition danglingJSON : JSValue -> string + JSValue :=
  jsonTable [(danglingText, danglingValue)].

Definition danglingHost : Host :=
  hostOf false None (Some (prefApi (prefHolding (JStr danglingText)))) None.

(** *** A preference with two providers and stale flags: "p1" is flagged, "p2"
    is the default *)

Definition staleText : string :=
  jsonText
    ("{'defaultProviderId':'p2','providers':[{'id':'p1','name':'Work',"
     ++ "'type':'openai','isDefault':true,'isBuiltIn':false,"
     ++ "'apiKey':'sk-live','createdAt':'2025-01-01T00:00:00.000Z',"
     ++ "'updatedAt':'2025-01-02T00:00:00.000Z'},{'id':'p2','name':'Home',"
     ++ "'type':'openai','isDefault':false,'isBuiltIn':false,"
     ++ "'apiKey':'sk-live','createdAt':'2025-01-01T00:00:00.000Z',"
     ++ "'updatedAt':'2025-01-02T00:00:00.000Z'}]}").

Definition staleValue : JSValue :=
  configValue "p2" [ providerValue "p1" "Work" true [];
                     providerValue "p2" "Home" false [] ].

Definition staleConfig : NemoProvidersConfig :=
  {| defaultProviderId := "p2";
     providers := [providerOf "p1" "Work" true; providerOf "p2" "Home" false] |}.

Definition staleJSON : JSValue -> string + JSValue :=
  jsonTable [(staleText, staleValue)].

Definition staleHost : Host :=
  hostOf false None (Some (prefApi (prefHolding (JStr staleText)))) None.

(** *** Key-value stores *)

(** Nothing stored. *)
Definition emptyStorage : option (string -> Reply JSValue) :=
  Some (storageApi []).

(** The configuration [staleValue], stored as an object. *)
Definition staleStorage : option (string -> Reply JSValue) :=
  Some (storageApi [(PROVIDERS, staleValue)]).

(** The configuration [danglingValue], stored as an object. *)
Definition danglingStorage : option (string -> Reply JSValue) :=
  Some (storageApi [(PROVIDERS, danglingValue)]).

(** A string that is not JSON. *)
Definition malformedStorage : option (string -> Reply JSValue) :=
  Some (storageApi [(PROVIDERS, JStr "{not json")]).

Definition noJSON : JSValue -> string + JSValue := jsonTable [].

(** A preference API that reports an error. *)
Definition failingPrefs : option (string -> Reply PrefCallback) :=
  Some (prefApi {| lastError := Some "Preference read failed";
                   pref := None |}).

(** *** Two providers that share the id "p1" *)

Definition duplicateValue : JSValue :=
  configValue "p1" [ providerValue "p1" "Work" true [];
                     providerValue "p1" "Home" false [] ].

(** *** Model configurations *)

Definition abcWindow : JSValue := JObj [("contextWindow", JStr "abc")].

Definition abcWindowConfig : JSValue :=
  configValue "p1" [providerValue "p1" "Work" true [("modelConfig", abcWindow)]].

Definition temperatureConfig (t : JSValue) : JSValue :=
  configValue "p1"
    [providerValue "p1" "Work" true
       [("modelConfig", JObj [("temperature", t)])]].

(** ** What a host holds for the reader *)

Section Stores.

Variable JSON_parse : JSValue -> string + JSValue.

(** [typeof raw === 'string' ? JSON.parse(raw) : raw] evaluates to
    [parsed]. *)
Definition Decodes (raw parsed : JSValue) : Prop :=
  match raw with
  | JStr _ => JSON_parse raw = inr parsed
  | _ => parsed = raw
  end.

(** The preference API is present and answers the well-known key, without
    error, with a text that parses and validates to [config]. *)
Inductive PreferenceHolds (h : Host) (config : NemoProvidersConfig)
  : Prop :=
| preference_holds api cb parsed :
    getPref h = Some api ->
    api PROVIDERS = Calls cb ->
    lastError cb = None ->
    truthy (prefValue cb) = true ->
    JSON_parse (prefValue cb) = inr parsed ->
    NemoProvidersConfigSchema parsed = Some config ->
    PreferenceHolds h config.

(** The preference API is absent and the key-value store answers the
    well-known key with a value that validates to [config]. *)
Inductive StorageHolds (h : Host) (config : NemoProvidersConfig) : Prop :=
| storage_holds get stored parsed :
    getPref h = None ->
    storageLocalGet h = Some get ->
    get PROVIDERS = Calls stored ->
    truthy (getProp stored PROVIDERS) = true ->
    Decodes (getProp stored PROVIDERS) parsed ->
    NemoProvidersConfigSchema parsed = Some config ->
    StorageHolds h config.

(** The store that the reader consults holds a configuration that validates
    to [config]. *)
Definition Persisted (h : Host) (config : NemoProvidersConfig) : Prop :=
  PreferenceHolds h config \/ StorageHolds h config.

(** The preference API is present and yields no valid configuration: it
    throws, reports an error, has no value, or its value is not JSON or does
    not validate. *)
Inductive PreferenceFails (h : Host) : Prop :=
| preference_throws api msg :
    getPref h = Some api ->
    api PROVIDERS = Throws msg ->
    PreferenceFails h
| preference_error api cb msg :
    getPref h = Some api ->
    api PROVIDERS = Calls cb ->
    lastError cb = Some msg ->
    PreferenceFails h
| preference_empty api cb :
    getPref h = Some api ->
    api PROVIDERS = Calls cb ->
    lastError cb = None ->
    truthy (prefValue cb) = false ->
    PreferenceFails h
| preference_malformed api cb msg :
    getPref h = Some api ->
    api PROVIDERS = Calls cb ->
    lastError cb = None ->
    truthy (prefValue cb) = true ->
    JSON_parse (prefValue cb) = inl msg ->
    PreferenceFails h
| preference_invalid api cb parsed :
    getPref h = Some api ->
    api PROVIDERS = Calls cb ->
    lastError cb = None ->
    truthy (prefValue cb) = true ->
    JSON_parse (prefValue cb) = inr parsed ->
    NemoProvidersConfigSchema parsed = None ->
    PreferenceFails h.

(** The preference API is absent and the key-value store yields no valid
    configuration: it throws, has no value under the key, or the value is a
    string that is not JSON, or it does not validate. *)
Inductive StorageFails (h : Host) : Prop :=
| storage_throws get msg :
    getPref h = None ->
    storageLocalGet h = Some get ->
    get PROVIDERS = Throws msg ->
    StorageFails h
| storage_empty get stored :
    getPref h = None ->
    storageLocalGet h = Some get ->
    get PROVIDERS = Calls stored ->
    truthy (getProp stored PROVIDERS) = false ->
    StorageFails h
| storage_malformed get stored text msg :
    getPref h = None ->
    storageLocalGet h = Some get ->
    get PROVIDERS = Calls stored ->
    getProp stored PROVIDERS = JStr text ->
    text <> "" ->
    JSON_parse (JStr text) = inl msg ->
    StorageFails h
| storage_invalid get stored parsed :
    getPref h = None ->
    storageLocalGet h = Some get ->
    get PROVIDERS = Calls stored ->
    truthy (getProp stored PROVIDERS) = true ->
    Decodes (getProp stored PROVIDERS) parsed ->
    NemoProvidersConfigSchema parsed = None ->
    StorageFails h.

End Stores.

(** The host API calls a read makes: the preference API when it is present,
    else the key-value store when that is present, under the same key. *)
Definition sourceConsulted (h : Host) : list Event :=
  match getPref h with
  | Some _ => [CalledGetPref PROVIDERS]
  | None =>
      match storageLocalGet h with
      | Some _ => [CalledStorageGet PROVIDERS]
      | None => []
      end
  end.

(** [h] with another key-value store on its object [chrome]. *)
Definition withStorage (h : Host)
  (storage : option (string -> Reply JSValue)) : Host :=
  {| isMockLLMSettings := isMockLLMSettings h;
     MOCK_PROVIDER_TYPE := MOCK_PROVIDER_TYPE h;
     OPENAI_API_KEY := OPENAI_API_KEY h;
     ANTHROPIC_API_KEY := ANTHROPIC_API_KEY h;
     GOOGLE_API_KEY := GOOGLE_API_KEY h;
     toISOString := toISOString h;
     chrome :=
       match chrome h with
       | Bound c =>
           Bound {| browserOS_getPref := browserOS_getPref c;
                    storage_local_get := storage |}
       | global => global
       end |}.

(** The state after [n] more clock reads. *)
Definition later (n : nat) (s : State) : State :=
  {| mockProvider := mockProvider s; ticks := n + ticks s |}.

(** The built-in provider synthesised in state [s]. *)
Definition builtInAt (h : Host) (s : State) : NemoProvider :=
  defaultNemoProvider (toISOString h (ticks s))
                      (toISOString h (S (ticks s))).

(** A computation that always fulfils. *)
Definition Total {A : Type} (m : Eff A) : Prop :=
  forall s, exists a s' out, m s = (Fulfilled a, s', out).

(** The event of [Logging.log('LLMSettingsReader', msg, lvl)]. *)
Definition entry (msg : string) (lvl : option string) : Event :=
  Logged {| source := LLMSettingsReader; message := msg; level := lvl |}.

(** The providers that carry [isDefault = true]. *)
Definition defaults (config : NemoProvidersConfig) : list NemoProvider :=
  filter isDefault (providers config).

(** Exactly one provider carries [isDefault = true], and its id is
    [defaultProviderId]. *)
Definition oneDefault (config : NemoProvidersConfig) : Prop :=
  exists p, defaults config = [p] /\ id p = defaultProviderId config.

(** The keys of the catalog in [getMockProvider]. *)
Definition catalogKeys : list string :=
  ["nemo"; "openai"; "anthropic"; "gemini"; "ollama"].

(** [{ name: "Test", type: "openai" }] *)
Definition testOverride : Partial.t :=
  {| Partial.id := None; Partial.name := Some "Test";
     Partial.type := Some openai; Partial.isDefault := None;
     Partial.isBuiltIn := None; Partial.baseUrl := None;
     Partial.apiKey := None; Partial.modelId := None;
     Partial.capabilities := None; Partial.modelConfig := None;
     Partial.createdAt := None; Partial.updatedAt := None |}.

(** ** A typed configuration seen as an untyped value

    [NemoProvidersConfigSchema.parse(nextConfig)] in the header of the side
    panel (Header.tsx) hands a typed configuration back to the schema: the
    object with the keys of the record, an optional key being left out when
    it is undefined. *)

Definition optionalKey {A : Type} (k : string) (inject : A -> JSValue)
  (o : option A) : list (string * JSValue) :=
  match o with
  | Some a => [(k, inject a)]
  | None => []
  end.

Definition untypedCapabilities (c : ProviderCapabilities) : JSValue :=
  JObj (optionalKey "supportsImages" JBool (supportsImages c)).

Definition untypedModelConfig (m : ModelConfig) : JSValue :=
  JObj (optionalKey "contextWindow" JNum (contextWindow m)
        ++ optionalKey "temperature" JNum (temperature m)).

Definition untypedProvider (p : NemoProvider) : JSValue :=
  JObj ([ ("id", JStr (id p));
          ("name", JStr (name p));
          ("type", JStr (typeName (type p)));
          ("isDefault", JBool (isDefault p));
          ("isBuiltIn", JBool (isBuiltIn p)) ]
        ++ optionalKey "baseUrl" JStr (baseUrl p)
        ++ optionalKey "apiKey" JStr (apiKey p)
        ++ optionalKey "modelId" JStr (modelId p)
        ++ optionalKey "capabilities" untypedCapabilities (capabilities p)
        ++ optionalKey "modelConfig" untypedModelConfig (modelConfig p)
        ++ [ ("createdAt", JStr (createdAt p));
             ("updatedAt", JStr (updatedAt p)) ]).

Definition untypedConfig (c : NemoProvidersConfig) : JSValue :=
  JObj [ ("defaultProviderId", JStr (defaultProviderId c));
         ("providers", JArr (map untypedProvider (providers c))) ].

(** The numbers of a model configuration pass the checks of the schema: the
    context window is not NaN and the temperature lies in [0, 2]. *)
Definition numbersValid (m : ModelConfig) : bool :=
  match contextWindow m with
  | Some n => negb (isNaN n)
  | None => true
  end &&
  match temperature m with
  | Some t => le (of_Z 0) t && le t (of_Z 2)
  | None => true
  end.

Definition revalidates (p : NemoProvider) : bool :=
  match modelConfig p with
  | Some m => numbersValid m
  | None => true
  end.

(** No context window of the provider is NaN. *)
Definition windowIsNumber (p : NemoProvider) : bool :=
  match modelConfig p with
  | Some m =>
      match contextWindow m with
      | Some n => negb (isNaN n)
      | None => true
      end
  | None => true
  end.

(** The keys that [NemoProviderSchema] declares. *)
Definition providerKeys : list string :=
  [ "id"; "name"; "type"; "isDefault"; "isBuiltIn"; "baseUrl"; "apiKey";
    "modelId"; "capabilities"; "modelConfig"; "createdAt"; "updatedAt" ].

(** An optional string key as it is persisted: absent, or the string. *)
Definition optionalString (o : option string) : JSValue :=
  match o with
  | Some s => JStr s
  | None => JUndefined
  end.

(** The text starts with a decimal digit. *)
Definition startsWithDigit (s : string) : bool :=
  match s with
  | String c _ =>
      match digitValue c with
      | Some _ => true
      | None => false
      end
  | EmptyString => false
  end.

(** An optional key as it is read back: [undefined] when it was left out. *)
Definition optionalValue {A : Type} (inject : A -> JSValue) (o : option A)
  : JSValue :=
  match o with
  | Some a => inject a
  | None => JUndefined
  end.

Definition isObject (v : JSValue) : bool :=
  match v with
  | JObj _ => true
  | _ => false
  end.

(** [h] with another answer of [isMockLLMSettings()]. *)
Definition withDevelopment (h : Host) (dev : bool) : Host :=
  {| isMockLLMSettings := dev;
     MOCK_PROVIDER_TYPE := MOCK_PROVIDER_TYPE h;
     OPENAI_API_KEY := OPENAI_API_KEY h;
     ANTHROPIC_API_KEY := ANTHROPIC_API_KEY h;
     GOOGLE_API_KEY := GOOGLE_API_KEY h;
     toISOString := toISOString h;
     chrome := chrome h |}.

(** The configuration that [readAllProviders] synthesises when it found
    none. *)
Definition builtInConfigAt (h : Host) (s : State) : NemoProvidersConfig :=
  {| defaultProviderId := "nemo"; providers := [builtInAt h s] |}.

(** The log entries that carry a level (a warning or an error). *)
Definition diagnostics (out : list Event) : list Event :=
  filter (fun e => match e with
                   | Logged l =>
                       match level l with
                       | Some _ => true
                       | None => false
                       end
                   | _ => false
                   end) out.

(** ** The header of the side panel (Header.tsx)

    The state that its two users of the configuration schema write, the
    listener of status messages and the handler of the default-provider
    selector. *)

Record HeaderState : Type := {
  (** [useState<NemoProvidersConfig | null>(null)] *)
  providersConfig : option NemoProvidersConfig;
  (** [useState<string | null>(null)] *)
  providersError : option string;
  (** [useState<any[]>([])] *)
  installedServers : JSValue
}.

Definition setProvidersConfig (c : NemoProvidersConfig) (st : HeaderState)
  : HeaderState :=
  {| providersConfig := Some c;
     providersError := providersError st;
     installedServers := installedServers st |}.

Definition setProvidersError (msg : string) (st : HeaderState) : HeaderState :=
  {| providersConfig := providersConfig st;
     providersError := Some msg;
     installedServers := installedServers st |}.

Definition setInstalledServers (servers : JSValue) (st : HeaderState)
  : HeaderState :=
  {| providersConfig := providersConfig st;
     providersError := providersError st;
     installedServers := servers |}.

(** [v === text] *)
Definition isString (v : JSValue) (text : string) : bool :=
  match v with
  | JStr s => String.eqb s text
  | _ => false
  end.

(** [{ defaultProviderId: nextId, providers: providersConfig.providers.map(p
    => ({ ...p, isDefault: p.id === nextId })) }] *)
Definition nextConfigOf (nextId : string) (config : NemoProvidersConfig)
  : NemoProvidersConfig :=
  {| defaultProviderId := nextId;
     providers :=
       map (fun p => withIsDefault p (String.eqb (id p) nextId))
           (providers config) |}.

Section Header.

Variable zodErrorMessage : JSValue -> string.

(** The listener of [MessageType.WORKFLOW_STATUS]. *)
Definition onWorkflowStatus (payload : JSValue) (st : HeaderState)
  : HeaderState :=
  if truthy payload
     && isString (getProp payload "status") "success"
     && truthy (getProp payload "data")
  then
    let data := getProp payload "data" in
    let st1 :=
      if truthy (getProp data "providersConfig") then
        match NemoProvidersConfigSchema (getProp data "providersConfig") with
        | Some cfg => setProvidersConfig cfg st
        | None =>
            setProvidersError
              (zodErrorMessage (getProp data "providersConfig")) st
        end
      else st in
    if truthy (getProp data "servers")
    then setInstalledServers (getProp data "servers") st1
    else st1
  else st.

(** The [onChange] of the default-provider selector, rendered for the
    configuration [config] of the state: the new state and the
    configurations sent with [MessageType.SAVE_LLM_PROVIDERS]. [sendOk] is
    what [sendMessage] returns. *)
Definition onSelectDefault (sendOk : bool) (nextId : string)
  (config : NemoProvidersConfig) (st : HeaderState)
  : HeaderState * list NemoProvidersConfig :=
  let nextConfig := nextConfigOf nextId config in
  match NemoProvidersConfigSchema (untypedConfig nextConfig) with
  | Some _ =>
      let st1 := setProvidersConfig nextConfig st in
      (if negb sendOk
       then setProvidersError "Failed to send save message" st1
       else st1,
       [nextConfig])
  | None =>
      (setProvidersError (zodErrorMessage (untypedConfig nextConfig)) st, [])
  end.

End Header.

(** ** Tactics for runs of the reader *)

(** Unfold the methods down to the state-passing functions. *)
Ltac unfold_reader :=
  unfold read, readAllProviders, readFromNemo, readProvidersConfig,
    mockOrNull, parseRaw, jsonParse, schemaParse, storageGet, prefGet,
    setMockProvider, getDefaultNemoProvider,
    Eff.tryCatch, Eff.bind, Eff.log, Eff.emit, Eff.ret, Eff.throw,
    Eff.never, Eff.now, Eff.getMock, Eff.setMock.

(** An API that is present sits on an object [chrome]. *)
Ltac bound_chrome :=
  repeat match goal with
         | H : getPref ?h = Some _ |- _ =>
             lazymatch goal with
             | _ : chrome h = Bound _ |- _ => fail
             | _ =>
                 let c := fresh "c" in
                 let Hc := fresh "Hc" in
                 assert (exists c, chrome h = Bound c) as [c Hc]
                   by (revert H; unfold getPref;
                       destruct (chrome h); try discriminate; eauto)
             end
         | H : storageLocalGet ?h = Some _ |- _ =>
             lazymatch goal with
             | _ : chrome h = Bound _ |- _ => fail
             | _ =>
                 let c := fresh "c" in
                 let Hc := fresh "Hc" in
                 assert (exists c, chrome h = Bound c) as [c Hc]
                   by (revert H; unfold storageLocalGet;
                       destruct (chrome h); try discriminate; eauto)
             end
         end.

(** Use the facts known of the host, then compute. *)
Ltac run_with_facts :=
  bound_chrome;
  unfold_reader;
  repeat match goal with
         | H : _ = _ |- _ => rewrite H
         end;
  cbn.

(** Case analysis on what the host answers, in the order the reader asks. *)
Ltac split_host :=
  repeat (match goal with
          | |- context [chrome ?h] => destruct (chrome h) eqn:?
          | |- context [getPref ?h] => destruct (getPref h) eqn:?
          | |- context [storageLocalGet ?h] =>
              destruct (storageLocalGet h) eqn:?
          | |- context [match ?reply with Calls _ => _ | Throws _ => _ end] =>
              destruct reply eqn:?
          | |- context [lastError ?cb] => destruct (lastError cb) eqn:?
          | |- context [truthy ?v] => destruct (truthy v) eqn:?
          | |- context [getProp ?v PROVIDERS] =>
              destruct (getProp v PROVIDERS) eqn:?
          | |- context [?parse (prefValue ?cb)] =>
              destruct (parse (prefValue cb)) eqn:?
          | |- context [?parse (JStr ?text)] =>
              destruct (parse (JStr text)) eqn:?
          | |- context [NemoProvidersConfigSchema ?v] =>
              destruct (NemoProvidersConfigSchema v) eqn:?
          | |- context [find ?f ?l] => destruct (find f l) eqn:?
          end; cbn -[NemoProvidersConfigSchema]).

(** * Properties of the schemas *)

Section NumberFacts.

Lemma SFcompare_antisym (x y : number) :
  SFcompare y x = option_map CompOpp (SFcompare x y).
Proof.
  destruct x as [sx | sx | | sx mx ex], y as [sy | sy | | sy my ey];
    simpl; try reflexivity;
    try (destruct sx; reflexivity); try (destruct sy; reflexivity);
    try (destruct sx, sy; reflexivity).
  pose proof (Pos.compare_cont_antisym mx my Eq) as Hm. simpl in Hm.
  destruct sx, sy; simpl; try reflexivity;
    rewrite (Z.compare_antisym ey ex);
    destruct (ey ?= ex)%Z; simpl; try reflexivity;
    rewrite <- Hm; destruct (Pos.compare_cont Eq mx my); reflexivity.
Qed.

Lemma SFcompare_None (x y : number) :
  SFcompare x y = None -> isNaN x = true \/ isNaN y = true.
Proof.
  destruct x, y; simpl; intros H; try discriminate H; auto.
Qed.

(** Away from NaN, [x < y] is the negation of [y <= x]. *)
Lemma lt_is_not_le (x y : number) :
  isNaN x = false -> isNaN y = false -> lt x y = negb (le y x).
Proof.
  intros Hx Hy. unfold lt, le, SFltb, SFleb.
  rewrite (SFcompare_antisym x y).
  destruct (SFcompare x y) as [[ | | ] | ] eqn:E; simpl; try reflexivity.
  apply SFcompare_None in E. destruct E as [E | E]; congruence.
Qed.

Lemma le_not_NaN (x y : number) : le x y = true -> isNaN y = false.
Proof.
  unfold le, SFleb. destruct x, y; simpl; intros H;
    try reflexivity; discriminate H.
Qed.

End NumberFacts.

Section SchemaFacts.

Lemma each_rejects {A : Type} (s : Zod.Schema A) (vs : list JSValue)
  (v : JSValue) :
  In v vs -> s v = None -> Zod.each s vs = None.
Proof.
  induction vs as [ | w rest IH]; intros Hin Hv; simpl in *.
  - contradiction.
  - destruct Hin as [-> | Hin].
    + now rewrite Hv.
    + destruct (s w); simpl; [ | reflexivity].
      now rewrite (IH Hin Hv).
Qed.

Lemma each_accepts {A : Type} (s : Zod.Schema A) (vs : list JSValue)
  (outs : list A) :
  Forall2 (fun v a => s v = Some a) vs outs -> Zod.each s vs = Some outs.
Proof.
  induction 1 as [ | v a vs outs Hv _ IH]; simpl.
  - reflexivity.
  - now rewrite Hv, IH.
Qed.

(** The temperature check, once the value is numeric: accepted unchanged
    inside [0, 2], refused outside. *)
Lemma temperatureSchema_coerced (v : JSValue) (n : number) :
  temperatureCoerced v = Some n ->
  temperatureSchema v =
    if le (of_Z 0) n && le n (of_Z 2) then Some (Some n) else None.
Proof.
  intros Hc.
  assert (Hv : v <> JUndefined) by (intros ->; discriminate Hc).
  unfold temperatureSchema, Zod.optional, Zod.pipe.
  rewrite Hc. simpl.
  assert (Hgoal :
    Zod.bind (Zod.max (Zod.min Zod.number (of_Z 0)) (of_Z 2) (JNum n))
             (fun a => Some (Some a)) =
    if le (of_Z 0) n && le n (of_Z 2) then Some (Some n) else None).
  { unfold Zod.max, Zod.min, Zod.number. cbn [Zod.bind].
    destruct (isNaN n) eqn:Hnan.
    - destruct n; try discriminate Hnan. reflexivity.
    - cbn [Zod.bind].
      rewrite (lt_is_not_le n (of_Z 0) Hnan eq_refl).
      destruct (le (of_Z 0) n); cbn [negb Zod.bind andb]; [ | reflexivity].
      rewrite (lt_is_not_le (of_Z 2) n eq_refl Hnan).
      destruct (le n (of_Z 2)); reflexivity. }
  destruct v; try exact Hgoal. contradiction.
Qed.

Lemma temperatureSchema_accepts (v : JSValue) (t : number) :
  temperatureSchema v = Some (Some t) ->
  temperatureCoerced v = Some t /\
  le (of_Z 0) t = true /\ le t (of_Z 2) = true.
Proof.
  intros H.
  destruct (temperatureCoerced v) as [n | ] eqn:Hc.
  - rewrite (temperatureSchema_coerced v n Hc) in H.
    destruct (le (of_Z 0) n) eqn:H0; [ | discriminate H].
    destruct (le n (of_Z 2)) eqn:H2; [ | discriminate H].
    simpl in H. injection H as <-. auto.
  - unfold temperatureSchema, Zod.optional, Zod.pipe in H.
    rewrite Hc in H. destruct v; discriminate H.
Qed.

(** A string that [parseFloat] cannot read is refused as a temperature. *)
Lemma temperatureSchema_unparsable (s : string) :
  isNaN (parseFloat s) = true -> temperatureSchema (JStr s) = None.
Proof.
  intros Hnan.
  rewrite (temperatureSchema_coerced (JStr s) (parseFloat s) eq_refl).
  destruct (parseFloat s); try discriminate Hnan. reflexivity.
Qed.

(** Every string is accepted as a context window, with the value of
    [parseInt]. *)
Lemma contextWindowSchema_string (s : string) :
  contextWindowSchema (JStr s) = Some (Some (parseInt10 s)).
Proof. reflexivity. Qed.

Lemma ModelConfigSchema_rejects_temperature (mc : JSValue) :
  temperatureSchema (getProp mc "temperature") = None ->
  ModelConfigSchema mc = None.
Proof.
  intros H. unfold ModelConfigSchema, Zod.object.
  destruct mc; try reflexivity.
  rewrite H. destruct (contextWindowSchema _); reflexivity.
Qed.

Lemma NemoProviderSchema_rejects_modelConfig (p : JSValue) :
  ModelConfigSchema (getProp p "modelConfig") = None ->
  getProp p "modelConfig" <> JUndefined ->
  NemoProviderSchema p = None.
Proof.
  intros H Hdef.
  assert (Hopt : Zod.optional ModelConfigSchema (getProp p "modelConfig")
                 = None).
  { unfold Zod.optional. rewrite H.
    destruct (getProp p "modelConfig"); try reflexivity. contradiction. }
  unfold NemoProviderSchema, Zod.object.
  destruct p; try reflexivity.
  rewrite Hopt.
  repeat match goal with
         | |- Zod.bind ?c _ = None =>
             destruct c; cbn [Zod.bind]; [ | reflexivity]
         end.
  reflexivity.
Qed.

(** A refused temperature anywhere in the collection makes the validation of
    the whole configuration fail. *)
Lemma config_rejects_temperature (cfg : JSValue) (ps : list JSValue)
  (p : JSValue) :
  getProp cfg "providers" = JArr ps ->
  In p ps ->
  temperatureSchema (getProp (getProp p "modelConfig") "temperature")
    = None ->
  NemoProvidersConfigSchema cfg = None.
Proof.
  intros Hps Hin Ht.
  assert (Hp : NemoProviderSchema p = None).
  { apply NemoProviderSchema_rejects_modelConfig.
    - now apply ModelConfigSchema_rejects_temperature.
    - intros Hu. rewrite Hu in Ht. discriminate Ht. }
  unfold NemoProvidersConfigSchema, Zod.object.
  destruct cfg; try reflexivity.
  rewrite Hps. unfold Zod.array.
  rewrite (each_rejects _ _ _ Hin Hp).
  destruct (Zod.string _); reflexivity.
Qed.

(** The configuration schema checks the default id and then each provider on
    its own. *)
Lemma config_accepts (cfg : JSValue) (d : string) (vs : list JSValue)
  (ps : list NemoProvider) :
  getProp cfg "defaultProviderId" = JStr d ->
  getProp cfg "providers" = JArr vs ->
  Forall2 (fun v p => NemoProviderSchema v = Some p) vs ps ->
  NemoProvidersConfigSchema cfg
    = Some {| defaultProviderId := d; providers := ps |}.
Proof.
  intros Hd Hvs Hall.
  unfold NemoProvidersConfigSchema, Zod.object.
  destruct cfg; try discriminate Hd.
  rewrite Hd, Hvs. unfold Zod.array. simpl.
  now rewrite (each_accepts _ _ _ Hall).
Qed.

(** C5. A temperature that is numeric after coercion is accepted exactly
    when it lies in [0, 2], bounds included, and it is then returned as it
    is, not clamped; otherwise validation fails, of the field and with it of
    the whole configuration. The string "1.5" validates to the number 1.5; the
    string "3" is coerced to 3 and refused. *)
Theorem temperature_within_closed_interval :
  (forall v n,
     temperatureCoerced v = Some n ->
     temperatureSchema v =
       if le (of_Z 0) n && le n (of_Z 2) then Some (Some n) else None) /\
  temperatureCoerced (JStr "1.5") = Some (of_decimal false 15 (-1)) /\
  temperatureSchema (JStr "1.5") = Some (Some (of_decimal false 15 (-1))) /\
  temperatureCoerced (JStr "3") = Some (of_Z 3) /\
  temperatureSchema (JStr "3") = None /\
  temperatureSchema (JStr "0") = Some (Some (of_Z 0)) /\
  temperatureSchema (JStr "2") = Some (Some (of_Z 2)) /\
  temperatureSchema (JStr "-0.5") = None /\
  temperatureSchema (JNum (of_decimal false 25 (-1))) = None /\
  (forall cfg ps p,
     getProp cfg "providers" = JArr ps ->
     In p ps ->
     temperatureSchema (getProp (getProp p "modelConfig") "temperature")
       = None ->
     NemoProvidersConfigSchema cfg = None) /\
  NemoProvidersConfigSchema (temperatureConfig (JStr "3")) = None /\
  (exists config,
     NemoProvidersConfigSchema (temperatureConfig (JStr "1.5")) = Some config /\
     map modelConfig (providers config) =
       [Some {| contextWindow := None;
                temperature := Some (of_decimal false 15 (-1)) |}]).
Proof.
  split; [exact temperatureSchema_coerced | ].
  do 8 (split; [vm_compute; reflexivity | ]).
  split; [exact config_rejects_temperature | ].
  split; [vm_compute; reflexivity | ].
  eexists. split; vm_compute; reflexivity.
Qed.

(** C4, at the failing input. A string that [parseInt] cannot read is accepted
    as a context window, with the value NaN: the field has no check after its
    coercion, and the configuration that holds it validates. The temperature
    has the check: there a string that [parseFloat] cannot read is refused. *)
Theorem contextWindow_unparsable_string_accepted :
  (forall s, contextWindowSchema (JStr s) = Some (Some (parseInt10 s))) /\
  parseInt10 "abc" = NaN /\
  ModelConfigSchema abcWindow
    = Some {| contextWindow := Some NaN; temperature := None |} /\
  (exists config,
     NemoProvidersConfigSchema abcWindowConfig = Some config /\
     map modelConfig (providers config) =
       [Some {| contextWindow := Some NaN; temperature := None |}]) /\
  (forall s, isNaN (parseFloat s) = true -> temperatureSchema (JStr s) = None) /\
  temperatureSchema (JStr "abc") = None.
Proof.
  split; [exact contextWindowSchema_string | ].
  split; [vm_compute; reflexivity | ].
  split; [vm_compute; reflexivity | ].
  split; [eexists; split; vm_compute; reflexivity | ].
  split; [exact temperatureSchema_unparsable | ].
  vm_compute. reflexivity.
Qed.

(** C9 (amended). The validator checks each provider on its own and never
    compares ids: a configuration whose providers each validate validates as
    a whole, and it still does with one of its providers repeated, so that
    two providers carry the same id. *)
Theorem validation_ignores_duplicate_ids
  (cfg : JSValue) (d : string) (vs : list JSValue) (ps : list NemoProvider) :
  getProp cfg "defaultProviderId" = JStr d ->
  getProp cfg "providers" = JArr vs ->
  Forall2 (fun v p => NemoProviderSchema v = Some p) vs ps ->
  NemoProvidersConfigSchema cfg
    = Some {| defaultProviderId := d; providers := ps |} /\
  (forall v p,
     In v vs -> NemoProviderSchema v = Some p ->
     NemoProvidersConfigSchema (configValue d (v :: vs))
       = Some {| defaultProviderId := d; providers := p :: ps |}).
Proof.
  intros Hd Hvs Hall. split.
  - exact (config_accepts cfg d vs ps Hd Hvs Hall).
  - intros v p _ Hv.
    apply config_accepts with (vs := v :: vs); try reflexivity.
    now constructor.
Qed.

(** C9, witness: the two providers of [duplicateValue] validate one by one,
    so the configuration validates although both have the id "p1". *)
Lemma validation_ignores_duplicate_ids_witness :
  getProp duplicateValue "defaultProviderId" = JStr "p1" /\
  getProp duplicateValue "providers"
    = JArr [ providerValue "p1" "Work" true [];
             providerValue "p1" "Home" false [] ] /\
  Forall2 (fun v p => NemoProviderSchema v = Some p)
    [ providerValue "p1" "Work" true [];
      providerValue "p1" "Home" false [] ]
    [ providerOf "p1" "Work" true; providerOf "p1" "Home" false ] /\
  NemoProvidersConfigSchema duplicateValue
    = Some {| defaultProviderId := "p1";
              providers := [ providerOf "p1" "Work" true;
                             providerOf "p1" "Home" false ] |}.
Proof.
  assert (H1 : getProp duplicateValue "defaultProviderId" = JStr "p1")
    by reflexivity.
  assert (H2 : getProp duplicateValue "providers"
               = JArr [ providerValue "p1" "Work" true [];
                        providerValue "p1" "Home" false [] ])
    by reflexivity.
  assert (H3 : Forall2 (fun v p => NemoProviderSchema v = Some p)
                 [ providerValue "p1" "Work" true [];
                   providerValue "p1" "Home" false [] ]
                 [ providerOf "p1" "Work" true; providerOf "p1" "Home" false ])
    by (repeat constructor).
  split; [exact H1 | split; [exact H2 | split; [exact H3 | ]]].
  exact (proj1 (validation_ignores_duplicate_ids _ _ _ _ H1 H2 H3)).
Defined.

(** C9, counterexample: a configuration in which two providers share the id
    "p1" passes validation. *)
Lemma duplicate_ids_validate_counterexample :
  exists config,
    NemoProvidersConfigSchema duplicateValue = Some config /\
    map id (providers config) = ["p1"; "p1"].
Proof.
  eexists. split; vm_compute; reflexivity.
Qed.

End SchemaFacts.

(** * Further properties of the schemas *)

Section SchemaCoverage.

Lemma NemoProviderTypeSchema_inv (v : JSValue) (t : NemoProviderType) :
  NemoProviderTypeSchema v = Some t <-> v = JStr (typeName t).
Proof.
  split.
  - unfold NemoProviderTypeSchema, Zod.enum. destruct v; try discriminate.
    cbn. intros H.
    repeat match type of H with
           | (if String.eqb ?a ?b then _ else _) = _ =>
               destruct (String.eqb_spec a b);
               [injection H as <-; subst; reflexivity | ]
           end.
    discriminate H.
  - intros ->. destruct t; reflexivity.
Qed.

Lemma string_inv (v : JSValue) (s : string) :
  Zod.string v = Some s -> v = JStr s.
Proof. destruct v; cbn; intros H; try discriminate H. now injection H as ->. Qed.

Lemma boolean_inv (v : JSValue) (b : bool) :
  Zod.boolean v = Some b -> v = JBool b.
Proof. destruct v; cbn; intros H; try discriminate H. now injection H as ->. Qed.

Lemma optional_string_inv (v : JSValue) (o : option string) :
  Zod.optional Zod.string v = Some o -> v = optionalString o.
Proof.
  destruct v; cbn; intros H; try discriminate H; now injection H as <-.
Qed.

(** Validation of a provider, key by key. *)
Lemma NemoProviderSchema_fields (v : JSValue) (p : NemoProvider) :
  NemoProviderSchema v = Some p <->
  isObject v = true /\
  Zod.string (getProp v "id") = Some (id p) /\
  Zod.string (getProp v "name") = Some (name p) /\
  NemoProviderTypeSchema (getProp v "type") = Some (type p) /\
  Zod.boolean (getProp v "isDefault") = Some (isDefault p) /\
  Zod.boolean (getProp v "isBuiltIn") = Some (isBuiltIn p) /\
  Zod.optional Zod.string (getProp v "baseUrl") = Some (baseUrl p) /\
  Zod.optional Zod.string (getProp v "apiKey") = Some (apiKey p) /\
  Zod.optional Zod.string (getProp v "modelId") = Some (modelId p) /\
  Zod.optional ProviderCapabilitiesSchema (getProp v "capabilities")
    = Some (capabilities p) /\
  Zod.optional ModelConfigSchema (getProp v "modelConfig")
    = Some (modelConfig p) /\
  Zod.string (getProp v "createdAt") = Some (createdAt p) /\
  Zod.string (getProp v "updatedAt") = Some (updatedAt p).
Proof.
  unfold NemoProviderSchema, Zod.object. split.
  - destruct v; try discriminate. intros H.
    repeat match type of H with
           | Zod.bind ?c _ = Some _ =>
               destruct c eqn:?; cbn [Zod.bind] in H; [ | discriminate H]
           end.
    injection H as <-. cbn. repeat split; reflexivity.
  - intros (Hobj & H1 & H2 & H3 & H4 & H5 & H6 & H7 & H8 & H9 & H10 & H11
            & H12).
    destruct v; try discriminate Hobj.
    rewrite H1, H2, H3, H4, H5, H6, H7, H8, H9, H10, H11, H12.
    destruct p; reflexivity.
Qed.

(** A provider validates only if its seven required keys hold values of their
    types and its three optional string keys are absent or strings; the typed
    provider carries exactly those values. An optional key that holds [null]
    makes validation fail. *)
Theorem validated_provider_reflects_persisted (v : JSValue) (p : NemoProvider) :
  NemoProviderSchema v = Some p ->
  getProp v "id" = JStr (id p) /\
  getProp v "name" = JStr (name p) /\
  getProp v "type" = JStr (typeName (type p)) /\
  getProp v "isDefault" = JBool (isDefault p) /\
  getProp v "isBuiltIn" = JBool (isBuiltIn p) /\
  getProp v "createdAt" = JStr (createdAt p) /\
  getProp v "updatedAt" = JStr (updatedAt p) /\
  getProp v "baseUrl" = optionalString (baseUrl p) /\
  getProp v "apiKey" = optionalString (apiKey p) /\
  getProp v "modelId" = optionalString (modelId p) /\
  (forall k,
     In k ["baseUrl"; "apiKey"; "modelId"; "capabilities"; "modelConfig"] ->
     getProp v k <> JNull).
Proof.
  intros H. apply NemoProviderSchema_fields in H.
  destruct H as (_ & H1 & H2 & H3 & H4 & H5 & H6 & H7 & H8 & H9 & H10 & H11
                 & H12).
  repeat split;
    try (now apply string_inv); try (now apply boolean_inv);
    try (now apply optional_string_inv);
    try (now apply NemoProviderTypeSchema_inv).
  intros k Hk Hnull. cbn in Hk.
  destruct Hk as [<- | [<- | [<- | [<- | [<- | []]]]]];
    rewrite Hnull in *; discriminate.
Qed.

(** Validation of a provider reads the declared keys only: two objects that
    agree on them validate alike, whatever other keys they hold. *)
Theorem undeclared_keys_are_ignored (v w : JSValue) :
  isObject v = true ->
  isObject w = true ->
  (forall k, In k providerKeys -> getProp v k = getProp w k) ->
  NemoProviderSchema v = NemoProviderSchema w.
Proof.
  intros Hv Hw Hsame.
  destruct v; try discriminate Hv. destruct w; try discriminate Hw.
  unfold NemoProviderSchema, Zod.object.
  rewrite !Hsame by (cbn; tauto). reflexivity.
Qed.

(** ** A typed configuration handed back to the schema *)

Lemma temperatureSchema_number (t : number) :
  temperatureSchema (JNum t)
    = if le (of_Z 0) t && le t (of_Z 2) then Some (Some t) else None.
Proof.
  destruct (isNaN t) eqn:Hnan.
  - destruct t; try discriminate Hnan. reflexivity.
  - apply temperatureSchema_coerced.
    unfold temperatureCoerced, Zod.transform, Zod.union, Zod.number.
    now rewrite Hnan.
Qed.

Lemma contextWindowSchema_number (n : number) :
  contextWindowSchema (JNum n) = if isNaN n then None else Some (Some n).
Proof.
  unfold contextWindowSchema, Zod.optional, Zod.transform, Zod.union,
    Zod.number.
  destruct (isNaN n); reflexivity.
Qed.

Lemma ModelConfigSchema_untyped (m : ModelConfig) :
  ModelConfigSchema (untypedModelConfig m)
    = if numbersValid m then Some m else None.
Proof.
  assert (Hcw : getProp (untypedModelConfig m) "contextWindow"
                = optionalValue JNum (contextWindow m))
    by (destruct m as [[cw | ] [t | ]]; reflexivity).
  assert (Ht : getProp (untypedModelConfig m) "temperature"
               = optionalValue JNum (temperature m))
    by (destruct m as [[cw | ] [t | ]]; reflexivity).
  unfold ModelConfigSchema, Zod.object.
  change (untypedModelConfig m) with
    (JObj (optionalKey "contextWindow" JNum (contextWindow m)
           ++ optionalKey "temperature" JNum (temperature m))) at 1.
  cbv beta iota. rewrite Hcw, Ht.
  unfold numbersValid.
  destruct m as [[cw | ] [t | ]]; cbn [contextWindow temperature optionalValue].
  - rewrite contextWindowSchema_number, temperatureSchema_number.
    destruct (isNaN cw); cbn [Zod.bind negb andb]; [reflexivity | ].
    destruct (le (of_Z 0) t && le t (of_Z 2)); reflexivity.
  - rewrite contextWindowSchema_number.
    destruct (isNaN cw); reflexivity.
  - rewrite temperatureSchema_number.
    change (contextWindowSchema JUndefined) with (Some (@None number)).
    cbn [Zod.bind andb].
    destruct (le (of_Z 0) t && le t (of_Z 2)); reflexivity.
  - reflexivity.
Qed.

Lemma ProviderCapabilitiesSchema_untyped (c : ProviderCapabilities) :
  ProviderCapabilitiesSchema (untypedCapabilities c) = Some c.
Proof. destruct c as [[b | ]]; reflexivity. Qed.

Lemma getProp_untypedProvider (p : NemoProvider) :
  getProp (untypedProvider p) "id" = JStr (id p) /\
  getProp (untypedProvider p) "name" = JStr (name p) /\
  getProp (untypedProvider p) "type" = JStr (typeName (type p)) /\
  getProp (untypedProvider p) "isDefault" = JBool (isDefault p) /\
  getProp (untypedProvider p) "isBuiltIn" = JBool (isBuiltIn p) /\
  getProp (untypedProvider p) "baseUrl" = optionalValue JStr (baseUrl p) /\
  getProp (untypedProvider p) "apiKey" = optionalValue JStr (apiKey p) /\
  getProp (untypedProvider p) "modelId" = optionalValue JStr (modelId p) /\
  getProp (untypedProvider p) "capabilities"
    = optionalValue untypedCapabilities (capabilities p) /\
  getProp (untypedProvider p) "modelConfig"
    = optionalValue untypedModelConfig (modelConfig p) /\
  getProp (untypedProvider p) "createdAt" = JStr (createdAt p) /\
  getProp (untypedProvider p) "updatedAt" = JStr (updatedAt p).
Proof.
  destruct p as [i n t d b [u | ] [a | ] [m | ] [c | ] [mc | ] cr up];
    repeat split; reflexivity.
Qed.

(** A typed provider handed back to the schema validates, to itself, exactly
    when its numbers pass the checks. *)
Lemma NemoProviderSchema_untyped (p : NemoProvider) :
  NemoProviderSchema (untypedProvider p)
    = if revalidates p then Some p else None.
Proof.
  destruct (getProp_untypedProvider p)
    as (H1 & H2 & H3 & H4 & H5 & H6 & H7 & H8 & H9 & H10 & H11 & H12).
  unfold NemoProviderSchema, Zod.object.
  change (untypedProvider p) with (JObj
    ([ ("id", JStr (id p)); ("name", JStr (name p));
       ("type", JStr (typeName (type p)));
       ("isDefault", JBool (isDefault p));
       ("isBuiltIn", JBool (isBuiltIn p)) ]
     ++ optionalKey "baseUrl" JStr (baseUrl p)
     ++ optionalKey "apiKey" JStr (apiKey p)
     ++ optionalKey "modelId" JStr (modelId p)
     ++ optionalKey "capabilities" untypedCapabilities (capabilities p)
     ++ optionalKey "modelConfig" untypedModelConfig (modelConfig p)
     ++ [ ("createdAt", JStr (createdAt p));
          ("updatedAt", JStr (updatedAt p)) ])) at 1.
  cbv beta iota.
  rewrite H1, H2, H3, H4, H5, H6, H7, H8, H9, H10, H11, H12.
  rewrite (proj2 (NemoProviderTypeSchema_inv _ (type p)) eq_refl).
  unfold revalidates.
  destruct p as [i n t d b [u | ] [a | ] [m | ] [c | ] [mc | ] cr up];
    cbn [Zod.bind Zod.string Zod.boolean Zod.optional optionalValue
         baseUrl apiKey modelId capabilities modelConfig
         id name type isDefault isBuiltIn createdAt updatedAt
         untypedCapabilities untypedModelConfig];
    try (change (JObj (optionalKey "supportsImages" JBool (supportsImages c)))
           with (untypedCapabilities c);
         rewrite ProviderCapabilitiesSchema_untyped);
    try (change (JObj (optionalKey "contextWindow" JNum (contextWindow mc)
                       ++ optionalKey "temperature" JNum (temperature mc)))
           with (untypedModelConfig mc);
         rewrite ModelConfigSchema_untyped; destruct (numbersValid mc));
    reflexivity.
Qed.

Lemma each_untyped (ps : list NemoProvider) :
  Zod.each NemoProviderSchema (map untypedProvider ps)
    = if forallb revalidates ps then Some ps else None.
Proof.
  induction ps as [ | p ps IH]; cbn [map Zod.each forallb].
  - reflexivity.
  - rewrite NemoProviderSchema_untyped, IH.
    destruct (revalidates p), (forallb revalidates ps); reflexivity.
Qed.

Lemma NemoProvidersConfigSchema_untyped (c : NemoProvidersConfig) :
  NemoProvidersConfigSchema (untypedConfig c)
    = if forallb revalidates (providers c) then Some c else None.
Proof.
  unfold NemoProvidersConfigSchema, Zod.object, untypedConfig.
  cbn [getProp lookup String.eqb Ascii.eqb Bool.eqb Zod.string Zod.bind
       Zod.array].
  rewrite each_untyped.
  destruct (forallb revalidates (providers c)); destruct c; reflexivity.
Qed.

Lemma each_inv {A : Type} (s : Zod.Schema A) (vs : list JSValue)
  (outs : list A) :
  Zod.each s vs = Some outs -> Forall2 (fun v a => s v = Some a) vs outs.
Proof.
  revert outs. induction vs as [ | v vs IH]; cbn; intros outs H.
  - injection H as <-. constructor.
  - destruct (s v) as [a | ] eqn:Hv; cbn in H; [ | discriminate H].
    destruct (Zod.each s vs) as [l | ]; cbn in H; [ | discriminate H].
    injection H as <-. constructor; auto.
Qed.

(** The temperature of a validated provider lies in [0, 2]: only a context
    window can keep it from validating again. *)
Lemma validated_provider_revalidates (v : JSValue) (p : NemoProvider) :
  NemoProviderSchema v = Some p -> revalidates p = windowIsNumber p.
Proof.
  intros H. apply NemoProviderSchema_fields in H.
  destruct H as (_ & _ & _ & _ & _ & _ & _ & _ & _ & _ & Hmc & _).
  unfold revalidates, windowIsNumber, numbersValid.
  destruct (modelConfig p) as [m | ]; [ | reflexivity].
  unfold Zod.optional in Hmc.
  assert (Hm : ModelConfigSchema (getProp v "modelConfig") = Some m).
  { destruct (getProp v "modelConfig"); try discriminate Hmc;
      destruct (ModelConfigSchema _); try discriminate Hmc;
      now injection Hmc as ->. }
  clear Hmc. unfold ModelConfigSchema, Zod.object in Hm.
  destruct (getProp v "modelConfig"); try discriminate Hm.
  destruct (contextWindowSchema _) as [cw | ]; cbn [Zod.bind] in Hm;
    [ | discriminate Hm].
  destruct (temperatureSchema _) as [t | ] eqn:Ht; cbn [Zod.bind] in Hm;
    [ | discriminate Hm].
  injection Hm as <-. cbn [contextWindow temperature].
  destruct t as [t | ]; [ | now rewrite andb_true_r].
  apply temperatureSchema_accepts in Ht. destruct Ht as (_ & -> & ->).
  now rewrite andb_true_r.
Qed.

Lemma validated_config_numbers (v : JSValue) (c : NemoProvidersConfig) :
  NemoProvidersConfigSchema v = Some c ->
  forallb revalidates (providers c) = forallb windowIsNumber (providers c).
Proof.
  intros H.
  assert (Hall : forall p, In p (providers c) ->
                           revalidates p = windowIsNumber p).
  { unfold NemoProvidersConfigSchema, Zod.object in H.
    destruct v; try discriminate H.
    destruct (Zod.string _); cbn [Zod.bind] in H; [ | discriminate H].
    unfold Zod.array in H.
    destruct (getProp _ "providers"); try discriminate H.
    destruct (Zod.each NemoProviderSchema items) as [ps | ] eqn:Heach;
      cbn [Zod.bind] in H; [ | discriminate H].
    injection H as <-. cbn [providers].
    apply each_inv in Heach.
    induction Heach as [ | w p ws ps Hw _ IH]; intros q Hq.
    - destruct Hq.
    - destruct Hq as [<- | Hq].
      + exact (validated_provider_revalidates w p Hw).
      + exact (IH q Hq). }
  assert (Heq : forallb revalidates (providers c)
                = forallb windowIsNumber (providers c)).
  { induction (providers c) as [ | p ps IH]; cbn; [reflexivity | ].
    rewrite (Hall p) by now left.
    rewrite IH; [reflexivity | ]. intros q Hq. apply Hall. now right. }
  exact Heq.
Qed.

(** A configuration that validated, handed back to the schema, validates to
    itself, unless one of its context windows is NaN (the value of a string
    that [parseInt] could not read): then it is refused. *)
Theorem validated_config_revalidates_unless_NaN
  (v : JSValue) (c : NemoProvidersConfig) :
  NemoProvidersConfigSchema v = Some c ->
  NemoProvidersConfigSchema (untypedConfig c)
    = if forallb windowIsNumber (providers c) then Some c else None.
Proof.
  intros H. rewrite NemoProvidersConfigSchema_untyped.
  now rewrite (validated_config_numbers v c H).
Qed.

(** ** Numbers written as text *)

Lemma readDigits_decimal (d : Decimal.uint) (a : nat) (c : Z) (rest : string) :
  startsWithDigit rest = false ->
  readDigits (NilEmpty.string_of_uint d ++ rest) (Z.of_nat a) c
    = (Z.of_nat (Nat.of_uint_acc d a),
       (c + Z.of_nat (Decimal.nb_digits d))%Z, rest).
Proof.
  intros Hrest. revert a c.
  induction d as [ | d IH | d IH | d IH | d IH | d IH | d IH | d IH | d IH
                   | d IH | d IH ];
    intros a c; cbn [NilEmpty.string_of_uint append Nat.of_uint_acc
                     Decimal.nb_digits];
    [ | cbn [readDigits];
        match goal with
        | |- context [digitValue ?ch] =>
            let v := eval vm_compute in (digitValue ch) in
            change (digitValue ch) with v
        end;
        cbv beta iota;
        match goal with
        | |- readDigits _ ?acc ?cnt = (Z.of_nat (Nat.of_uint_acc d ?a'), _, _) =>
            replace acc with (Z.of_nat a')
              by (rewrite ?Nat.tail_mul_spec; lia);
            rewrite IH; f_equal; f_equal; lia
        end .. ].
  rewrite Z.add_0_r.
  destruct rest as [ | ch rest']; [reflexivity | ].
  cbn [startsWithDigit] in Hrest. cbn [readDigits].
  destruct (digitValue ch); [discriminate Hrest | reflexivity].
Qed.

Lemma to_uint_nonnil (n : nat) : Nat.to_uint n <> Decimal.Nil.
Proof.
  rewrite <- (DecimalNat.Unsigned.of_to n) at 1.
  rewrite DecimalNat.Unsigned.to_of.
  apply DecimalFacts.unorm_nonnil.
Qed.

(** A context window written as decimal text, also when other text follows
    the digits ("128000 tokens"), validates to the number that the digits
    denote. *)
Theorem contextWindow_decimal_text (n : nat) (rest : string) :
  startsWithDigit rest = false ->
  contextWindowSchema (JStr (lengthText n ++ rest))
    = Some (Some (of_Z (Z.of_nat n))).
Proof.
  intros Hrest. rewrite contextWindowSchema_string. do 2 f_equal.
  unfold lengthText, parseInt10.
  pose proof (to_uint_nonnil n) as Hnil.
  pose proof (DecimalNat.Unsigned.of_to n) as Hof.
  unfold Nat.of_uint in Hof.
  pose proof (readDigits_decimal (Nat.to_uint n) 0 0 rest Hrest) as Hread.
  rewrite Hof in Hread. change (Z.of_nat 0) with 0%Z in Hread.
  assert (Hhead :
    trimStart (NilEmpty.string_of_uint (Nat.to_uint n) ++ rest)
      = (NilEmpty.string_of_uint (Nat.to_uint n) ++ rest)%string /\
    readSign (NilEmpty.string_of_uint (Nat.to_uint n) ++ rest)
      = (false, (NilEmpty.string_of_uint (Nat.to_uint n) ++ rest)%string) /\
    (0 + Z.of_nat (Decimal.nb_digits (Nat.to_uint n)) =? 0)%Z = false).
  { destruct (Nat.to_uint n); try contradiction;
      (split; [reflexivity | split; [reflexivity | ]]);
      apply Z.eqb_neq; cbn [Decimal.nb_digits]; lia. }
  destruct Hhead as (-> & -> & Hcount).
  rewrite Hread, Hcount.
  unfold of_Z. rewrite Z.abs_eq by lia.
  destruct (Z.ltb_spec (Z.of_nat n) 0); [lia | reflexivity].
Qed.

Lemma trimStart_padding (pad s : string) :
  trimStart pad = EmptyString -> trimStart (pad ++ s) = trimStart s.
Proof.
  induction pad as [ | c rest IH]; cbn; intros H.
  - reflexivity.
  - destruct (isWhiteSpace c); [exact (IH H) | discriminate H].
Qed.

(** Both coercions skip leading white space: a number written as text
    validates, as a context window and as a temperature, to what it
    validates to without the white space before it. *)
Theorem leading_white_space_is_skipped (pad s : string) :
  trimStart pad = EmptyString ->
  contextWindowSchema (JStr (pad ++ s)) = contextWindowSchema (JStr s) /\
  temperatureSchema (JStr (pad ++ s)) = temperatureSchema (JStr s).
Proof.
  intros Hpad. split.
  - rewrite !contextWindowSchema_string. unfold parseInt10.
    now rewrite (trimStart_padding pad s Hpad).
  - rewrite (temperatureSchema_coerced (JStr (pad ++ s)) (parseFloat (pad ++ s))
               eq_refl).
    rewrite (temperatureSchema_coerced (JStr s) (parseFloat s) eq_refl).
    unfold parseFloat. now rewrite (trimStart_padding pad s Hpad).
Qed.

End SchemaCoverage.

(** * Properties of the reader *)

Section ReaderFacts.

Variable JSON_parse : JSValue -> string + JSValue.
Variable zodErrorMessage : JSValue -> string.

Local Abbreviation read' := (read JSON_parse zodErrorMessage).
Local Abbreviation readAllProviders' :=
  (readAllProviders JSON_parse zodErrorMessage).
Local Abbreviation readFromNemo' :=
  (readFromNemo JSON_parse zodErrorMessage).
Local Abbreviation readProvidersConfig' :=
  (readProvidersConfig JSON_parse zodErrorMessage).

Lemma getDefaultNemoProvider_run (h : Host) (s : State) :
  getDefaultNemoProvider h s = (Fulfilled (builtInAt h s), later 2 s, []).
Proof. reflexivity. Qed.

Lemma getMockProvider_override (h : Host) (s : State) (m : NemoProvider) :
  mockProvider s = Some m ->
  getMockProvider h s = (Fulfilled m, s, []).
Proof.
  intros Hm. unfold getMockProvider, Eff.bind, Eff.getMock.
  now rewrite Hm.
Qed.

(** The mock factory always returns, logs nothing, calls no host API and
    keeps the override. *)
Lemma getMockProvider_total (h : Host) (s : State) :
  exists p n, getMockProvider h s = (Fulfilled p, later n s, []).
Proof.
  destruct (mockProvider s) as [m | ] eqn:Hm.
  - exists m, 0. rewrite (getMockProvider_override h s m Hm).
    destruct s; reflexivity.
  - unfold getMockProvider, Eff.bind, Eff.getMock. rewrite Hm.
    cbn.
    repeat match goal with
           | |- context [String.eqb ?a ?b] => destruct (String.eqb a b)
           end;
      cbn; first [ now (eexists; exists 10) | now (eexists; exists 12) ].
Qed.

(** [try { m } catch { handler }] followed by [k] does not reject when the
    handler and [k] always fulfil, whatever [m] does. *)
Lemma caught_never_rejects {A B : Type} (m : Eff A)
  (handler : string -> Eff A) (k : A -> Eff B) (s : State) (e : string) :
  (forall msg, Total (handler msg)) ->
  (forall a, Total (k a)) ->
  outcome (Eff.bind (Eff.tryCatch m handler) k s) <> Rejected e.
Proof.
  intros Hh Hk. unfold Eff.bind, Eff.tryCatch, outcome.
  destruct (m s) as [[r s1] out1].
  destruct r as [a | msg | ].
  - destruct (Hk a s1) as (b & s2 & out2 & ->). discriminate.
  - destruct (Hh msg s1) as (a & s2 & out2 & ->).
    destruct (Hk a s2) as (b & s3 & out3 & ->). discriminate.
  - discriminate.
Qed.


(** [readAllProviders], likewise. *)
Lemma readAllProviders_never_rejects (h : Host) (s : State) (e : string) :
  outcome (readAllProviders' h s) <> Rejected e.
Proof.
  unfold readAllProviders. apply caught_never_rejects.
  - intros msg s'. cbn. now do 3 eexists.
  - intros [c | ] s'; cbn; now do 3 eexists.
Qed.

(** Outside development mode nothing writes the override. *)
Lemma setMockProvider_refused (h : Host) (provider : Partial.t) (s : State) :
  isMockLLMSettings h = false ->
  setMockProvider h provider s =
    (Fulfilled tt, s,
     [Logged {| source := LLMSettingsReader;
                message :=
                  "setMockProvider is only available in development mode";
                level := Some "warning" |}]).
Proof.
  intros Hdev. unfold setMockProvider. now rewrite Hdev.
Qed.

(** In development mode the override becomes the built-in default of the
    moment with the given keys on top. *)
Lemma setMockProvider_sets (h : Host) (provider : Partial.t) (s : State) :
  isMockLLMSettings h = true ->
  exists out,
    setMockProvider h provider s =
      (Fulfilled tt,
       {| mockProvider := Some (spread (builtInAt h s) provider);
          ticks := 2 + ticks s |},
       out).
Proof.
  intros Hdev. unfold setMockProvider. rewrite Hdev.
  eexists. reflexivity.
Qed.

(** ** How [read] and [readAllProviders] continue after the stores were read *)

Lemma read_of_found (h : Host) (s s1 : State) (out : list Event)
  (p : Resolved) :
  readFromNemo' h s = (Fulfilled (Some p), s1, out) ->
  exists out', read' h s = (Fulfilled p, s1, out').
Proof.
  intros H. unfold read, Eff.bind, Eff.tryCatch, Eff.log, Eff.emit.
  rewrite H. cbn. eexists. reflexivity.
Qed.

Lemma read_of_missing (h : Host) (s s1 : State) (out : list Event) :
  readFromNemo' h s = (Fulfilled None, s1, out) ->
  exists out', read' h s = (Fulfilled (builtInAt h s1), later 2 s1, out').
Proof.
  intros H. unfold read, Eff.bind, Eff.tryCatch, Eff.log, Eff.emit.
  rewrite H. cbn. eexists. reflexivity.
Qed.


Lemma readAllProviders_of_found (h : Host) (s s1 : State) (out : list Event)
  (c : NemoProvidersConfig) :
  readProvidersConfig' h s = (Fulfilled (Some c), s1, out) ->
  readAllProviders' h s =
    (Fulfilled c, s1,
     out ++ [entry ("Loaded " ++ lengthText (List.length (providers c))
                    ++ " providers") None]).
Proof.
  intros H. unfold readAllProviders, Eff.bind, Eff.tryCatch, Eff.log, Eff.emit.
  rewrite H. cbn. now rewrite app_nil_r.
Qed.

(** ** What reading the stores gives *)

Lemma parseRaw_valid (raw parsed : JSValue) (config : NemoProvidersConfig)
  (s : State) :
  Decodes JSON_parse raw parsed ->
  NemoProvidersConfigSchema parsed = Some config ->
  parseRaw JSON_parse zodErrorMessage raw s = (Fulfilled config, s, []).
Proof.
  intros Hd Hv. unfold parseRaw, jsonParse, schemaParse, Eff.bind, Eff.ret.
  destruct raw; cbn in Hd; subst; rewrite ?Hd, ?Hv; reflexivity.
Qed.

Lemma parseRaw_invalid (raw parsed : JSValue) (s : State) :
  Decodes JSON_parse raw parsed ->
  NemoProvidersConfigSchema parsed = None ->
  parseRaw JSON_parse zodErrorMessage raw s
    = (Rejected (zodErrorMessage parsed), s, []).
Proof.
  intros Hd Hv. unfold parseRaw, jsonParse, schemaParse, Eff.bind, Eff.ret.
  destruct raw; cbn in Hd; subst; rewrite ?Hd, ?Hv; reflexivity.
Qed.

Lemma readProvidersConfig_preference (h : Host) (config : NemoProvidersConfig)
  (s : State) :
  PreferenceHolds JSON_parse h config ->
  readProvidersConfig' h s =
    (Fulfilled (Some (normalizeIsDefault config)), s,
     [CalledGetPref PROVIDERS]).
Proof.
  intros [api cb parsed Hapi Hcb Herr Hval Hjson Hzod].
  run_with_facts. reflexivity.
Qed.

Lemma readProvidersConfig_storage (h : Host) (config : NemoProvidersConfig)
  (s : State) :
  StorageHolds JSON_parse h config ->
  readProvidersConfig' h s =
    (Fulfilled (Some config), s, [CalledStorageGet PROVIDERS]).
Proof.
  intros [get stored parsed Hapi Hget Hst Hval Hdec Hzod]. bound_chrome.
  unfold readProvidersConfig. rewrite Hc, Hapi.
  unfold Eff.tryCatch, Eff.bind at 1. unfold storageGet. rewrite Hc, Hget.
  unfold Eff.bind at 1. cbn [Eff.emit]. rewrite Hst. cbn [Eff.ret].
  rewrite Hval. cbn [negb]. unfold Eff.bind.
  rewrite (parseRaw_valid _ _ _ _ Hdec Hzod). reflexivity.
Qed.

Lemma readFromNemo_preference (h : Host) (config : NemoProvidersConfig)
  (s : State) :
  PreferenceHolds JSON_parse h config ->
  readFromNemo' h s =
    match findDefault (defaultProviderId config)
                      (providers (normalizeIsDefault config)) with
    | Some p => (Fulfilled (Some (Provider p)), s, [CalledGetPref PROVIDERS])
    | None =>
        (Fulfilled None, s,
         [CalledGetPref PROVIDERS;
          entry "Default provider not found in config" (Some "warning")])
    end.
Proof.
  intros [api cb parsed Hapi Hcb Herr Hval Hjson Hzod].
  run_with_facts.
  match goal with
  | |- context [find ?f ?l] => destruct (find f l)
  end; reflexivity.
Qed.

Lemma readFromNemo_storage (h : Host) (config : NemoProvidersConfig)
  (s : State) :
  StorageHolds JSON_parse h config ->
  readFromNemo' h s =
    (Fulfilled (option_map Provider
                  (findDefault (defaultProviderId config) (providers config))),
     s, [CalledStorageGet PROVIDERS]).
Proof.
  intros [get stored parsed Hapi Hget Hst Hval Hdec Hzod]. bound_chrome.
  unfold readFromNemo. rewrite Hc, Hapi.
  unfold Eff.tryCatch, Eff.bind at 1. unfold storageGet. rewrite Hc, Hget.
  unfold Eff.bind at 1. cbn [Eff.emit]. rewrite Hst. cbn [Eff.ret].
  rewrite Hval. cbn [negb]. unfold Eff.bind.
  rewrite (parseRaw_valid _ _ _ _ Hdec Hzod). reflexivity.
Qed.

Lemma readFromNemo_preference_fails (h : Host) (s : State) :
  PreferenceFails JSON_parse h ->
  exists r out,
    readFromNemo' h s = (r, s, CalledGetPref PROVIDERS :: out) /\
    (r = Fulfilled None \/ exists msg, r = Rejected msg).
Proof.
  intros [api msg Hapi Hcb
         | api cb msg Hapi Hcb Herr
         | api cb Hapi Hcb Herr Hval
         | api cb msg Hapi Hcb Herr Hval Hjson
         | api cb parsed Hapi Hcb Herr Hval Hjson Hzod];
    run_with_facts; do 2 eexists; (split; [reflexivity | eauto]).
Qed.

Lemma readProvidersConfig_preference_fails (h : Host) (s : State) :
  PreferenceFails JSON_parse h ->
  exists r,
    readProvidersConfig' h s = (r, s, [CalledGetPref PROVIDERS]) /\
    (r = Fulfilled None \/ exists msg, r = Rejected msg).
Proof.
  intros [api msg Hapi Hcb
         | api cb msg Hapi Hcb Herr
         | api cb Hapi Hcb Herr Hval
         | api cb msg Hapi Hcb Herr Hval Hjson
         | api cb parsed Hapi Hcb Herr Hval Hjson Hzod];
    run_with_facts; eexists; (split; [reflexivity | eauto]).
Qed.

(** What the body of the [try] of the fallback branch does when the store
    yields no valid configuration: it throws, or it finds no value. *)
Lemma storage_fails_cases (h : Host) :
  StorageFails JSON_parse h ->
  getPref h = None /\
  exists get,
    storageLocalGet h = Some get /\
    ((exists msg, get PROVIDERS = Throws msg) \/
     (exists stored,
        get PROVIDERS = Calls stored /\
        (truthy (getProp stored PROVIDERS) = false \/
         (truthy (getProp stored PROVIDERS) = true /\
          exists msg, forall s,
            parseRaw JSON_parse zodErrorMessage (getProp stored PROVIDERS) s
              = (Rejected msg, s, []))))).
Proof.
  intros [get msg Hapi Hget Hst
         | get stored Hapi Hget Hst Hval
         | get stored text msg Hapi Hget Hst Hraw Htext Hjson
         | get stored parsed Hapi Hget Hst Hval Hdec Hzod];
    (split; [assumption | ]); exists get; (split; [assumption | ]).
  - left. eauto.
  - right. exists stored. auto.
  - right. exists stored. split; [assumption | ]. right. split.
    + rewrite Hraw. destruct text as [ | c rest]; [congruence | reflexivity].
    + exists msg. intros s. rewrite Hraw.
      unfold parseRaw, jsonParse, Eff.bind. now rewrite Hjson.
  - right. exists stored. split; [assumption | ]. right.
    split; [assumption | ].
    exists (zodErrorMessage parsed). intros s.
    now apply parseRaw_invalid.
Qed.

Lemma readProvidersConfig_storage_fails (h : Host) (s : State) :
  StorageFails JSON_parse h ->
  readProvidersConfig' h s = (Fulfilled None, s, [CalledStorageGet PROVIDERS]).
Proof.
  intros Hf.
  destruct (storage_fails_cases h Hf)
    as (Hapi & get & Hget & [(msg & Hst) | (stored & Hst & Hraw)]);
    bound_chrome.
  - run_with_facts. reflexivity.
  - destruct Hraw as [Hval | (Hval & msg & Hparse)].
    + run_with_facts. reflexivity.
    + unfold readProvidersConfig. rewrite Hc, Hapi.
      unfold Eff.tryCatch, Eff.bind at 1. unfold storageGet. rewrite Hc, Hget.
      unfold Eff.bind at 1. cbn [Eff.emit]. rewrite Hst. cbn [Eff.ret].
      rewrite Hval. cbn [negb]. unfold Eff.bind.
      rewrite Hparse. reflexivity.
Qed.

(** The fallback branch of [readFromNemo] on a store without a valid
    configuration: [mockOrNull], after the one call of the store. *)
Lemma readFromNemo_storage_fails (h : Host) (s : State) :
  StorageFails JSON_parse h ->
  exists why,
    readFromNemo' h s =
      let '(r, s', out) := mockOrNull h why s in
      (r, s', CalledStorageGet PROVIDERS :: out).
Proof.
  intros Hf.
  destruct (storage_fails_cases h Hf)
    as (Hapi & get & Hget & [(msg & Hst) | (stored & Hst & Hraw)]);
    bound_chrome.
  - exists "Storage read failed, using mock provider".
    unfold readFromNemo. rewrite Hc, Hapi.
    unfold Eff.tryCatch, Eff.bind at 1. unfold storageGet. rewrite Hc, Hget.
    unfold Eff.bind at 1. cbn [Eff.emit]. rewrite Hst. cbn [Eff.throw].
    destruct (mockOrNull h _ s) as [[r s'] out]. reflexivity.
  - destruct Hraw as [Hval | (Hval & msg & Hparse)].
    + exists "No stored providers found, using mock provider".
      unfold readFromNemo. rewrite Hc, Hapi.
      unfold Eff.tryCatch, Eff.bind at 1. unfold storageGet. rewrite Hc, Hget.
      unfold Eff.bind at 1. cbn [Eff.emit]. rewrite Hst. cbn [Eff.ret].
      rewrite Hval. cbn [negb].
      unfold mockOrNull. destruct (isMockLLMSettings h).
      * destruct (getMockProvider_total h s) as (p & n & Hmock).
        unfold Eff.bind, Eff.log, Eff.emit, Eff.ret. rewrite Hmock.
        reflexivity.
      * reflexivity.
    + exists "Storage read failed, using mock provider".
      unfold readFromNemo. rewrite Hc, Hapi.
      unfold Eff.tryCatch, Eff.bind at 1. unfold storageGet. rewrite Hc, Hget.
      unfold Eff.bind at 1. cbn [Eff.emit]. rewrite Hst. cbn [Eff.ret].
      rewrite Hval. cbn [negb]. unfold Eff.bind at 1.
      rewrite Hparse.
      destruct (mockOrNull h _ s) as [[r s'] out]. reflexivity.
Qed.

(** ** The mock provider and the development switch *)

Lemma mockOrNull_production (h : Host) (why : string) (s : State) :
  isMockLLMSettings h = false ->
  mockOrNull h why s = (Fulfilled None, s, []).
Proof.
  intros Hdev. unfold mockOrNull. now rewrite Hdev.
Qed.

Lemma mockOrNull_override (h : Host) (why : string) (s : State)
  (m : NemoProvider) :
  isMockLLMSettings h = true ->
  mockProvider s = Some m ->
  mockOrNull h why s
    = (Fulfilled (Some (Provider m)), s, [entry why (Some "warning")]).
Proof.
  intros Hdev Hm. unfold mockOrNull. rewrite Hdev.
  unfold Eff.bind, Eff.log, Eff.emit, Eff.ret.
  now rewrite (getMockProvider_override h s m Hm).
Qed.

(** Outside development mode reading the stores neither reads nor writes the
    state: its result and events are the same from every state. *)
Lemma readFromNemo_production (h : Host) (s : State) :
  isMockLLMSettings h = false ->
  readFromNemo' h s =
    (outcome (readFromNemo' h start), s, events (readFromNemo' h start)).
Proof.
  intros Hdev. unfold outcome, events.
  unfold_reader. rewrite Hdev. split_host; reflexivity.
Qed.

(** Outside development mode [read] never looks at the override: from two
    states with the same clock it gives the same provider and the same
    events, and it leaves the override as it found it. *)
Lemma read_production_ignores_override (h : Host) (s1 s2 : State) :
  isMockLLMSettings h = false ->
  ticks s1 = ticks s2 ->
  outcome (read' h s1) = outcome (read' h s2) /\
  events (read' h s1) = events (read' h s2) /\
  mockProvider (finalState (read' h s1)) = mockProvider s1.
Proof.
  intros Hdev Hticks.
  unfold read, Eff.bind, Eff.tryCatch, Eff.log, Eff.emit.
  rewrite (readFromNemo_production h s1 Hdev).
  rewrite (readFromNemo_production h s2 Hdev).
  destruct (outcome (readFromNemo' h start)) as [[p | ] | msg | ];
    cbn; unfold builtInAt; rewrite ?Hticks; auto.
Qed.

(** C7. Outside development mode a call of [setMockProvider] only logs a
    warning. The state, and with it the stored override, is left as it was;
    whatever runs after the call ends as it would have without it, with the
    warning put before its events; and no read depends on the override, so
    mock data cannot reach a read made outside development mode. *)
Theorem setMockProvider_noop_outside_development
  (h : Host) (provider : Partial.t) (s : State) :
  isMockLLMSettings h = false ->
  let warning :=
    entry "setMockProvider is only available in development mode"
          (Some "warning") in
  setMockProvider h provider s = (Fulfilled tt, s, [warning]) /\
  (forall (A : Type) (k : Eff A),
     (setMockProvider h provider ;; k) s =
       let '(r, s', out) := k s in (r, s', warning :: out)) /\
  (forall m : option NemoProvider,
     outcome (read' h {| mockProvider := m; ticks := ticks s |})
       = outcome (read' h s)).
Proof.
  intros Hdev warning. split; [ | split].
  - exact (setMockProvider_refused h provider s Hdev).
  - intros A k. unfold Eff.bind.
    rewrite (setMockProvider_refused h provider s Hdev).
    destruct (k s) as [[r s'] out]. reflexivity.
  - intros m.
    now apply read_production_ignores_override.
Qed.

(** With no override stored and a type hint that is no catalog key, the
    factory ends in the inherited member of that name when there is one, and
    in a fresh built-in provider otherwise. *)
Lemma getMockProvider_off_catalog (h : Host) (s : State) :
  mockProvider s = None ->
  ~ In (orDefault (MOCK_PROVIDER_TYPE h) "nemo") catalogKeys ->
  getMockProvider h s =
    if inherited (orDefault (MOCK_PROVIDER_TYPE h) "nemo")
    then (Fulfilled (Inherited (orDefault (MOCK_PROVIDER_TYPE h) "nemo")),
          later 10 s, [])
    else (Fulfilled (builtInAt h (later 10 s)), later 12 s, []).
Proof.
  intros Hm.
  unfold getMockProvider, Eff.bind, Eff.getMock. rewrite Hm.
  generalize (orDefault (MOCK_PROVIDER_TYPE h) "nemo").
  intros k Hkey.
  assert (Hneq : forall key, In key catalogKeys -> String.eqb k key = false).
  { intros key Hin. apply String.eqb_neq. intros ->. now apply Hkey. }
  cbn -[inherited String.eqb].
  rewrite !Hneq by (cbn; tauto).
  destruct (inherited k); reflexivity.
Qed.

Lemma inherited_In (k : string) :
  inherited k = true <-> In k ObjectPrototypeKeys.
Proof.
  unfold inherited. rewrite existsb_exists. split.
  - intros (x & Hin & Heq). apply String.eqb_eq in Heq. now subst.
  - intros Hin. exists k. split; [exact Hin | apply String.eqb_refl].
Qed.

(** C10. The claim fails on [MOCK_PROVIDER_TYPE = "constructor"]. With no
    override stored, a type hint that is a property name of
    [Object.prototype] is no catalog key, and yet the factory does not return
    the built-in default provider: [mockProviders[mockType]] finds the
    inherited member, a truthy value that is no provider, and returns it; in
    development mode with an empty store [read] hands it to its caller. For
    every other type hint that is no catalog key, "google_gemini" among them,
    and for the unset one, the factory returns the built-in default provider,
    as the claim says. *)
Theorem getMockProvider_inherited_member_returned :
  (forall (h : Host) (s : State) (k : string),
     mockProvider s = None ->
     MOCK_PROVIDER_TYPE h = Some k ->
     In k ObjectPrototypeKeys ->
     ~ In k catalogKeys /\
     getMockProvider h s = (Fulfilled (Inherited k), later 10 s, [])) /\
  In "constructor" ObjectPrototypeKeys /\
  outcome (read noJSON zodText
             (hostOf true (Some "constructor") None emptyStorage) start)
    = Fulfilled (Inherited "constructor") /\
  (forall p : NemoProvider, Inherited "constructor" <> Provider p) /\
  (forall (h : Host) (s : State),
     mockProvider s = None ->
     (forall k, MOCK_PROVIDER_TYPE h = Some k ->
                ~ In k catalogKeys /\ ~ In k ObjectPrototypeKeys) ->
     exists n s',
       getMockProvider h s = (Fulfilled (builtInAt h (later n s)), s', []) /\
       mockProvider s' = None) /\
  ~ In "google_gemini" catalogKeys /\
  ~ In "google_gemini" ObjectPrototypeKeys /\
  In "gemini" catalogKeys.
Proof.
  split; [ | split; [ | split; [ | split; [ | split; [ | split; [ | split]]]]]].
  - intros h s k Hm Hk Hin.
    assert (Hoff : ~ In k catalogKeys).
    { cbn in Hin. cbn.
      repeat (destruct Hin as [<- | Hin];
              [intros [H | [H | [H | [H | [H | []]]]]]; discriminate H | ]).
      destruct Hin. }
    split; [exact Hoff | ].
    assert (Hk' : orDefault (MOCK_PROVIDER_TYPE h) "nemo" = k).
    { rewrite Hk. unfold orDefault.
      destruct (String.eqb_spec k "") as [-> | _]; [ | reflexivity].
      cbn in Hin.
      repeat (destruct Hin as [H | Hin]; [discriminate H | ]).
      destruct Hin. }
    rewrite (getMockProvider_off_catalog h s Hm) by (now rewrite Hk').
    rewrite Hk'. now rewrite (proj2 (inherited_In k) Hin).
  - cbn. tauto.
  - vm_compute. reflexivity.
  - discriminate.
  - intros h s Hm Hkey.
    destruct (MOCK_PROVIDER_TYPE h) as [k | ] eqn:Hk.
    + destruct (Hkey k eq_refl) as [Hcat Hproto].
      destruct (String.eqb_spec k "") as [-> | Hempty].
      * exists 0. eexists.
        unfold getMockProvider, Eff.bind, Eff.getMock. rewrite Hm, Hk.
        cbn. split; [reflexivity | exact Hm].
      * assert (Hk' : orDefault (MOCK_PROVIDER_TYPE h) "nemo" = k).
        { rewrite Hk. unfold orDefault.
          destruct (String.eqb_spec k ""); [contradiction | reflexivity]. }
        exists 10. eexists.
        rewrite (getMockProvider_off_catalog h s Hm) by (now rewrite Hk').
        rewrite Hk'.
        destruct (inherited k) eqn:Hinh.
        -- apply inherited_In in Hinh. contradiction.
        -- split; [reflexivity | exact Hm].
    + exists 0. eexists.
      unfold getMockProvider, Eff.bind, Eff.getMock. rewrite Hm, Hk.
      cbn. split; [reflexivity | exact Hm].
  - cbn. intros [H | [H | [H | [H | [H | []]]]]]; discriminate H.
  - cbn. intros H.
    repeat (destruct H as [H | H]; [discriminate H | ]). destruct H.
  - cbn. tauto.
Qed.

(** ** Every host is in one of five situations

    The fifth, a host with neither API, is one where [chrome] is not
    declared, holds no object, or is an object without them. *)

Lemma preference_cases (h : Host) (api : string -> Reply PrefCallback) :
  getPref h = Some api ->
  (exists config, PreferenceHolds JSON_parse h config) \/
  PreferenceFails JSON_parse h.
Proof.
  intros Hapi.
  destruct (api PROVIDERS) as [cb | msg] eqn:Hcb.
  - destruct (lastError cb) as [msg | ] eqn:Herr.
    + right. eapply preference_error; eassumption.
    + destruct (truthy (prefValue cb)) eqn:Hval.
      * destruct (JSON_parse (prefValue cb)) as [msg | parsed] eqn:Hjson.
        -- right. eapply preference_malformed; eassumption.
        -- destruct (NemoProvidersConfigSchema parsed) as [config | ] eqn:Hzod.
           ++ left. exists config. eapply preference_holds; eassumption.
           ++ right. eapply preference_invalid; eassumption.
      * right. eapply preference_empty; eassumption.
  - right. eapply preference_throws; eassumption.
Qed.

Lemma decodes_or_malformed (raw : JSValue) :
  truthy raw = true ->
  (exists parsed, Decodes JSON_parse raw parsed) \/
  (exists text msg,
     raw = JStr text /\ text <> "" /\ JSON_parse (JStr text) = inl msg).
Proof.
  intros Hval.
  destruct raw as [ | | b | n | text | items | fields];
    try (left; eexists; reflexivity).
  destruct (JSON_parse (JStr text)) as [msg | parsed] eqn:Hjson.
  - right. exists text, msg. repeat split; try assumption.
    intros ->. discriminate Hval.
  - left. exists parsed. exact Hjson.
Qed.

Lemma storage_cases (h : Host) (get : string -> Reply JSValue) :
  getPref h = None ->
  storageLocalGet h = Some get ->
  (exists config, StorageHolds JSON_parse h config) \/
  StorageFails JSON_parse h.
Proof.
  intros Hapi Hget.
  destruct (get PROVIDERS) as [stored | msg] eqn:Hst.
  - destruct (truthy (getProp stored PROVIDERS)) eqn:Hval.
    + destruct (decodes_or_malformed _ Hval)
        as [(parsed & Hdec) | (text & msg & Hraw & Htext & Hjson)].
      * destruct (NemoProvidersConfigSchema parsed) as [config | ] eqn:Hzod.
        -- left. exists config. eapply storage_holds; eassumption.
        -- right. eapply storage_invalid; eassumption.
      * right. eapply storage_malformed; eassumption.
    + right. eapply storage_empty; eassumption.
  - right. eapply storage_throws; eassumption.
Qed.

Lemma host_cases (h : Host) :
  (exists config, PreferenceHolds JSON_parse h config) \/
  PreferenceFails JSON_parse h \/
  (exists config, StorageHolds JSON_parse h config) \/
  StorageFails JSON_parse h \/
  (getPref h = None /\ storageLocalGet h = None).
Proof.
  destruct (getPref h) as [api | ] eqn:Hapi.
  - destruct (preference_cases h api Hapi); auto.
  - destruct (storageLocalGet h) as [get | ] eqn:Hget.
    + destruct (storage_cases h get Hapi Hget); auto.
    + auto 6.
Qed.

(** [mockOrNull] always returns; it calls no host API and keeps the
    override. *)
Lemma mockOrNull_total (h : Host) (why : string) (s : State) :
  exists r n out,
    mockOrNull h why s = (Fulfilled r, later n s, out) /\
    filter isHostCall out = [].
Proof.
  unfold mockOrNull. destruct (isMockLLMSettings h).
  - destruct (getMockProvider_total h s) as (p & n & Hmock).
    unfold Eff.bind, Eff.log, Eff.emit, Eff.ret. rewrite Hmock.
    exists (Some p), n. eexists. split; reflexivity.
  - exists None, 0. eexists. destruct s. split; reflexivity.
Qed.

(** Reading the stores: the result is the state after some clock reads, with
    the override left as it was, and the host calls are those of the one
    source consulted. *)
Lemma readFromNemo_frame (h : Host) (s : State) :
  exists r n out,
    readFromNemo' h s = (r, later n s, out) /\
    filter isHostCall out = sourceConsulted h /\
    (r = Pending -> getPref h = None /\ storageLocalGet h = None).
Proof.
  unfold sourceConsulted.
  destruct (host_cases h)
    as [(config & Hh) | [Hf | [(config & Hh) | [Hf | (Hapi & Hget)]]]].
  - rewrite (readFromNemo_preference h config s Hh).
    destruct Hh as [api cb parsed Hapi _ _ _ _ _]. rewrite Hapi.
    destruct (findDefault _ _); eexists; exists 0; eexists; destruct s;
      (split; [reflexivity | split; [reflexivity | discriminate]]).
  - destruct (readFromNemo_preference_fails h s Hf) as (r & out & Hrun & Hr).
    assert (Hout : filter isHostCall out = []).
    { clear Hr. revert Hrun.
      destruct Hf; run_with_facts; intros Heq; injection Heq as _ <-;
        reflexivity. }
    assert (Hapi : exists api, getPref h = Some api) by (destruct Hf; eauto).
    destruct Hapi as (api & ->).
    exists r, 0. eexists. rewrite Hrun. destruct s.
    split; [reflexivity | split].
    + cbn. now rewrite Hout.
    + intros ->. destruct Hr as [Hr | (msg & Hr)]; discriminate Hr.
  - rewrite (readFromNemo_storage h config s Hh).
    destruct Hh as [get stored parsed Hapi Hget _ _ _ _]. rewrite Hapi, Hget.
    eexists; exists 0; eexists; destruct s.
    split; [reflexivity | split; [reflexivity | discriminate]].
  - destruct (readFromNemo_storage_fails h s Hf) as (why & ->).
    destruct (mockOrNull_total h why s) as (r & n & out & -> & Hout).
    assert (Hapi : getPref h = None /\ exists get, storageLocalGet h = Some get)
      by (destruct Hf; eauto).
    destruct Hapi as (-> & get & ->).
    exists (Fulfilled r), n. eexists.
    split; [reflexivity | split].
    + cbn. now rewrite Hout.
    + discriminate.
  - rewrite Hapi, Hget. unfold readFromNemo. rewrite Hapi.
    destruct (chrome h) as [ | | c] eqn:Hc.
    + exists (Rejected "chrome is not defined"), 0. eexists. destruct s.
      split; [reflexivity | split; [reflexivity | discriminate]].
    + unfold Eff.tryCatch, Eff.bind, storageGet. rewrite Hc.
      cbn [Eff.throw].
      destruct (mockOrNull_total h "Storage read failed, using mock provider" s)
        as (r & n & out & -> & Hout).
      exists (Fulfilled r), n. eexists.
      split; [reflexivity | split; [exact Hout | discriminate]].
    + unfold Eff.tryCatch, Eff.bind, storageGet. rewrite Hc, Hget.
      exists Pending, 0. eexists. destruct s. cbn. auto.
Qed.

(** [read] keeps the override, and it fulfils as soon as the source it
    consults exists. *)
Lemma read_frame (h : Host) (s : State) :
  exists r n out,
    read' h s = (r, later n s, out) /\
    (getPref h <> None \/ storageLocalGet h <> None ->
     exists p, r = Fulfilled p).
Proof.
  destruct (readFromNemo_frame h s) as (r & n & out & Hrun & _ & Hpending).
  unfold read, Eff.bind, Eff.tryCatch, Eff.log, Eff.emit. rewrite Hrun.
  destruct r as [[p | ] | msg | ]; cbn.
  - do 3 eexists. split; [reflexivity | eauto].
  - exists (Fulfilled (Provider (builtInAt h (later n s)))), (2 + n).
    eexists.
    split; [reflexivity | eauto].
  - exists (Fulfilled (Provider (builtInAt h (later n s)))), (2 + n).
    eexists.
    split; [reflexivity | eauto].
  - do 3 eexists. split; [reflexivity | ].
    destruct (Hpending eq_refl) as [Hapi Hget].
    intros [H | H]; contradiction.
Qed.

(** ** When what [read] resolves to is a provider *)





(** ** The default provider of a configuration *)

Lemma findDefault_dangling (d : string) (ps : list NemoProvider) :
  (forall p, In p ps -> id p <> d) -> findDefault d ps = None.
Proof.
  unfold findDefault. induction ps as [ | p ps IH]; intros Hall; cbn.
  - reflexivity.
  - destruct (String.eqb_spec (id p) d) as [Heq | _].
    + exfalso. apply (Hall p); [now left | exact Heq].
    + apply IH. intros q Hq. apply Hall. now right.
Qed.

Lemma normalizeIsDefault_ids (config : NemoProvidersConfig) (p : NemoProvider) :
  In p (providers (normalizeIsDefault config)) ->
  exists q, In q (providers config) /\ id p = id q /\
            isDefault p = String.eqb (id q) (defaultProviderId config).
Proof.
  cbn. intros Hin. apply in_map_iff in Hin. destruct Hin as (q & <- & Hq).
  exists q. auto.
Qed.

(** After normalisation the providers flagged as default are those whose id
    is [defaultProviderId]. *)
Lemma defaults_normalizeIsDefault (config : NemoProvidersConfig) :
  defaults (normalizeIsDefault config) =
    map (fun p => withIsDefault p true)
        (filter (fun p => String.eqb (id p) (defaultProviderId config))
                (providers config)).
Proof.
  unfold defaults. cbn.
  induction (providers config) as [ | p ps IH]; cbn.
  - reflexivity.
  - destruct (String.eqb (id p) (defaultProviderId config)) eqn:Heq; cbn.
    + now rewrite IH.
    + exact IH.
Qed.

(** C6. When the store that the reader consults holds a configuration that
    validates but whose [defaultProviderId] is the id of none of its
    providers, [read] returns the built-in provider synthesised at that
    moment: it neither rejects nor returns a persisted provider. *)
Theorem read_dangling_default_gives_builtin
  (h : Host) (s : State) (config : NemoProvidersConfig) :
  Persisted JSON_parse h config ->
  (forall p, In p (providers config) -> id p <> defaultProviderId config) ->
  exists out, read' h s = (Fulfilled (builtInAt h s), later 2 s, out).
Proof.
  intros [Hh | Hh] Hdangling.
  - assert (Hnone :
      findDefault (defaultProviderId config)
                  (providers (normalizeIsDefault config)) = None).
    { apply findDefault_dangling. intros p Hp.
      destruct (normalizeIsDefault_ids config p Hp) as (q & Hq & -> & _).
      now apply Hdangling. }
    pose proof (readFromNemo_preference h config s Hh) as Hrun.
    rewrite Hnone in Hrun.
    exact (read_of_missing h s s _ Hrun).
  - pose proof (readFromNemo_storage h config s Hh) as Hrun.
    rewrite (findDefault_dangling _ _ Hdangling) in Hrun.
    exact (read_of_missing h s s _ Hrun).
Qed.

(** A host without either source. Where [chrome] is not declared, reading
    the identifier throws: [read] catches the ReferenceError, logs it as an
    error and returns the built-in provider, and [readAllProviders] the
    configuration of the built-in provider alone. Where [chrome] holds
    [undefined] or [null] the read of the store throws inside the [try] of
    the fallback branch: both queries give the built-in answer again ([read]
    in development mode the mock provider), and nothing is logged as an
    error. Where [chrome] is an object that has neither API nothing resolves
    the promise of the fallback branch, and neither query settles. *)
Theorem read_without_sources (h : Host) (s : State) :
  (chrome h = Undeclared ->
   read' h s =
     (Fulfilled (builtInAt h s), later 2 s,
      [ entry "Reading provider settings from Nemo preferences" None;
        entry "Failed to read settings: chrome is not defined" (Some "error");
        entry "Using default Nemo provider" None ]) /\
   readAllProviders' h s =
     (Fulfilled (builtInConfigAt h s), later 2 s,
      [ entry "Failed to read providers: chrome is not defined"
              (Some "error") ])) /\
  (chrome h = Nullish ->
   (isMockLLMSettings h = false ->
    read' h s =
      (Fulfilled (builtInAt h s), later 2 s,
       [ entry "Reading provider settings from Nemo preferences" None;
         entry "Using default Nemo provider" None ])) /\
   (isMockLLMSettings h = true ->
    outcome (read' h s) = outcome (getMockProvider h s)) /\
   readAllProviders' h s = (Fulfilled (builtInConfigAt h s), later 2 s, [])) /\
  (forall c,
     chrome h = Bound c ->
     browserOS_getPref c = None ->
     storage_local_get c = None ->
     read' h s =
       (Pending, s,
        [entry "Reading provider settings from Nemo preferences" None]) /\
     readAllProviders' h s = (Pending, s, [])).
Proof.
  split; [ | split].
  - intros Hc. unfold_reader. rewrite Hc. split; reflexivity.
  - intros Hc.
    assert (Hapi : getPref h = None) by (unfold getPref; now rewrite Hc).
    split; [ | split].
    + intros Hdev. unfold_reader. rewrite Hc, Hapi, Hdev. reflexivity.
    + intros Hdev.
      unfold read, readFromNemo, storageGet, mockOrNull,
        Eff.tryCatch, Eff.bind, Eff.log, Eff.emit, Eff.throw, Eff.ret.
      rewrite Hc, Hapi, Hdev. unfold outcome.
      destruct (getMockProvider_total h s) as (r & n & ->). reflexivity.
    + unfold_reader. rewrite Hc, Hapi. reflexivity.
  - intros c Hc Hpref Hstore.
    assert (Hapi : getPref h = None) by (unfold getPref; now rewrite Hc).
    assert (Hget : storageLocalGet h = None)
      by (unfold storageLocalGet; now rewrite Hc).
    unfold_reader. rewrite Hc, Hapi, Hget. split; reflexivity.
Qed.


(** On the fallback path the configuration is returned as it validated: the
    persisted [isDefault] flags are not recomputed there. *)
Lemma readAllProviders_storage_as_persisted
  (h : Host) (s : State) (config : NemoProvidersConfig) :
  StorageHolds JSON_parse h config ->
  exists out, readAllProviders' h s = (Fulfilled config, s, out).
Proof.
  intros Hh.
  pose proof (readProvidersConfig_storage h config s Hh) as Hrun.
  apply readAllProviders_of_found in Hrun. eauto.
Qed.

(** C1 (amended). When the preference API holds a configuration that
    validates, [readAllProviders] returns it with every [isDefault] recomputed
    as [id = defaultProviderId], whatever flags were persisted: the providers
    flagged as default are those whose id is [defaultProviderId], there are as
    many of them as persisted providers with that id, and exactly one, with
    that id, when exactly one persisted provider has it. *)
Theorem readAllProviders_preference_normalizes
  (h : Host) (s : State) (config : NemoProvidersConfig) :
  PreferenceHolds JSON_parse h config ->
  let sameId := fun p => String.eqb (id p) (defaultProviderId config) in
  exists out result,
    readAllProviders' h s = (Fulfilled result, s, out) /\
    defaultProviderId result = defaultProviderId config /\
    providers result =
      map (fun p => withIsDefault p (sameId p)) (providers config) /\
    (forall p, In p (providers result) ->
               isDefault p = String.eqb (id p) (defaultProviderId result)) /\
    List.length (defaults result)
      = List.length (filter sameId (providers config)) /\
    (List.length (filter sameId (providers config)) = 1 ->
     oneDefault result).
Proof.
  intros Hh sameId.
  pose proof (readProvidersConfig_preference h config s Hh) as Hrun.
  apply readAllProviders_of_found in Hrun.
  eexists. exists (normalizeIsDefault config).
  split; [exact Hrun | ].
  split; [reflexivity | ].
  split; [reflexivity | ].
  split; [ | split].
  - intros p Hp.
    destruct (normalizeIsDefault_ids config p Hp) as (q & _ & -> & ->).
    reflexivity.
  - rewrite defaults_normalizeIsDefault. now rewrite length_map.
  - intros Hone. unfold oneDefault.
    rewrite defaults_normalizeIsDefault. fold sameId.
    destruct (filter sameId (providers config)) as [ | p [ | q rest]] eqn:Hf;
      try discriminate Hone.
    exists (withIsDefault p true). split; [reflexivity | ].
    assert (Hin : In p (filter sameId (providers config)))
      by (rewrite Hf; now left).
    apply filter_In in Hin. destruct Hin as [_ Hid].
    cbn. now apply String.eqb_eq.
Qed.

(** Reading the full configuration calls the one source consulted and leaves
    the state as it was. *)
Lemma readProvidersConfig_frame (h : Host) (s : State) :
  exists r out,
    readProvidersConfig' h s = (r, s, out) /\
    filter isHostCall out = sourceConsulted h.
Proof.
  unfold sourceConsulted.
  destruct (host_cases h)
    as [(config & Hh) | [Hf | [(config & Hh) | [Hf | (Hapi & Hget)]]]].
  - rewrite (readProvidersConfig_preference h config s Hh).
    destruct Hh as [api cb parsed Hapi _ _ _ _ _]. rewrite Hapi.
    do 2 eexists. split; reflexivity.
  - destruct (readProvidersConfig_preference_fails h s Hf) as (r & Hrun & _).
    assert (Hapi : exists api, getPref h = Some api) by (destruct Hf; eauto).
    destruct Hapi as (api & ->). rewrite Hrun.
    do 2 eexists. split; reflexivity.
  - rewrite (readProvidersConfig_storage h config s Hh).
    destruct Hh as [get stored parsed Hapi Hget _ _ _ _]. rewrite Hapi, Hget.
    do 2 eexists. split; reflexivity.
  - rewrite (readProvidersConfig_storage_fails h s Hf).
    assert (Hapi : getPref h = None /\ exists get, storageLocalGet h = Some get)
      by (destruct Hf; eauto).
    destruct Hapi as (-> & get & ->).
    do 2 eexists. split; reflexivity.
  - rewrite Hapi, Hget.
    unfold readProvidersConfig, Eff.tryCatch, Eff.bind, storageGet.
    rewrite Hapi, Hget.
    destruct (chrome h); cbn; do 2 eexists; split; reflexivity.
Qed.

(** With the preference API present the key-value store plays no part. *)
Lemma preference_shadows_storage (h : Host)
  (storage : option (string -> Reply JSValue)) (s : State) :
  getPref h <> None ->
  readFromNemo' (withStorage h storage) s = readFromNemo' h s /\
  readProvidersConfig' (withStorage h storage) s = readProvidersConfig' h s.
Proof.
  intros Hapi.
  assert (Hc : exists c, chrome h = Bound c).
  { unfold getPref in Hapi.
    destruct (chrome h) as [ | | c]; try (now elim Hapi). eauto. }
  destruct Hc as [c Hc].
  assert (Hsame : getPref (withStorage h storage) = getPref h).
  { unfold getPref, withStorage. cbn. now rewrite Hc. }
  unfold readFromNemo, readProvidersConfig. rewrite Hsame.
  cbn [chrome withStorage]. rewrite Hc.
  destruct (getPref h) as [api | ]; [ | contradiction].
  split; reflexivity.
Qed.

(** C3 (amended). A read of either kind consults one source: the preference
    API when the capability is present, else the key-value store, under the
    same well-known key. The store is read only when the capability is
    absent: when the preference API is present its answer alone decides the
    result, and an error or a missing value there is not-found at once,
    whatever the key-value store holds. *)
Theorem one_source_is_consulted (h : Host) (s : State) :
  hostCalls (readFromNemo' h s) = sourceConsulted h /\
  hostCalls (readProvidersConfig' h s) = sourceConsulted h /\
  (getPref h <> None ->
   forall storage,
     readFromNemo' (withStorage h storage) s = readFromNemo' h s /\
     readProvidersConfig' (withStorage h storage) s
       = readProvidersConfig' h s) /\
  (forall api cb,
     getPref h = Some api -> api PROVIDERS = Calls cb ->
     lastError cb <> None \/ truthy (prefValue cb) = false ->
     outcome (readFromNemo' h s) = Fulfilled None /\
     outcome (readProvidersConfig' h s) = Fulfilled None) /\
  (forall config,
     StorageHolds JSON_parse h config ->
     outcome (readProvidersConfig' h s) = Fulfilled (Some config) /\
     outcome (readFromNemo' h s)
       = Fulfilled (option_map Provider
                      (findDefault (defaultProviderId config)
                                   (providers config)))).
Proof.
  split; [ | split; [ | split; [ | split]]].
  - destruct (readFromNemo_frame h s) as (r & n & out & -> & Hcalls & _).
    exact Hcalls.
  - destruct (readProvidersConfig_frame h s) as (r & out & -> & Hcalls).
    exact Hcalls.
  - intros Hapi storage. now apply preference_shadows_storage.
  - intros api cb Hapi Hcb Hnone.
    destruct (lastError cb) as [msg | ] eqn:Herr.
    + split; run_with_facts; reflexivity.
    + destruct Hnone as [Hnone | Hval]; [congruence | ].
      split; run_with_facts; reflexivity.
  - intros config Hh.
    now rewrite (readProvidersConfig_storage h config s Hh),
                (readFromNemo_storage h config s Hh).
Qed.

(** C8 (amended). In development mode [setMockProvider] stores the built-in
    default of that moment with the given keys on top, and no read changes
    what is stored. Every later [read] made in development mode while the
    preference API is absent and the key-value store yields no valid
    configuration returns that provider; for [{name: "Test", type:
    "openai"}] it has the name "Test", the type "openai" and every other field
    of the built-in default. *)
Theorem mock_override_served_when_storage_fails
  (h : Host) (provider : Partial.t) (s : State) :
  isMockLLMSettings h = true ->
  let mock := spread (builtInAt h s) provider in
  mockProvider (finalState (setMockProvider h provider s)) = Some mock /\
  (forall h' s',
     mockProvider s' = Some mock ->
     isMockLLMSettings h' = true ->
     StorageFails JSON_parse h' ->
     exists out, read' h' s' = (Fulfilled mock, s', out)) /\
  (forall h' s', mockProvider (finalState (read' h' s')) = mockProvider s') /\
  (provider = testOverride ->
   mock = {| id := "nemo"; name := "Test"; type := openai;
             isDefault := true; isBuiltIn := true;
             baseUrl := None; apiKey := None; modelId := None;
             capabilities := None; modelConfig := None;
             createdAt := toISOString h (ticks s);
             updatedAt := toISOString h (S (ticks s)) |}).
Proof.
  intros Hdev mock. split; [ | split; [ | split]].
  - destruct (setMockProvider_sets h provider s Hdev) as (out & ->).
    reflexivity.
  - intros h' s' Hmock Hdev' Hf.
    destruct (readFromNemo_storage_fails h' s' Hf) as (why & Hrun).
    rewrite (mockOrNull_override h' why s' mock Hdev' Hmock) in Hrun.
    exact (read_of_found h' s' s' _ mock Hrun).
  - intros h' s'.
    destruct (read_frame h' s') as (r & n & out & -> & _). reflexivity.
  - intros ->. reflexivity.
Qed.

(** ** Further properties of the reader *)

Lemma readAllProviders_of_missing (h : Host) (s s1 : State)
  (out : list Event) :
  readProvidersConfig' h s = (Fulfilled None, s1, out) ->
  exists out',
    readAllProviders' h s = (Fulfilled (builtInConfigAt h s1), later 2 s1, out').
Proof.
  intros H. unfold readAllProviders, Eff.bind, Eff.tryCatch.
  rewrite H. cbn. eexists. reflexivity.
Qed.

Lemma readAllProviders_of_rejected (h : Host) (s s1 : State)
  (out : list Event) (msg : string) :
  readProvidersConfig' h s = (Rejected msg, s1, out) ->
  exists out',
    readAllProviders' h s = (Fulfilled (builtInConfigAt h s1), later 2 s1, out').
Proof.
  intros H. unfold readAllProviders, Eff.bind, Eff.tryCatch, Eff.log, Eff.emit.
  rewrite H. cbn. eexists. reflexivity.
Qed.

(** Whenever the source it consults yields no valid configuration, in
    development mode or not, [readAllProviders] returns the configuration
    made of the built-in provider alone, with [defaultProviderId = "nemo"]:
    one provider, flagged as default. *)
Theorem readAllProviders_falls_back_to_builtin (h : Host) (s : State) :
  PreferenceFails JSON_parse h \/ StorageFails JSON_parse h ->
  (exists out,
     readAllProviders' h s
       = (Fulfilled (builtInConfigAt h s), later 2 s, out)) /\
  oneDefault (builtInConfigAt h s).
Proof.
  intros Hfails. split.
  - destruct Hfails as [Hf | Hf].
    + destruct (readProvidersConfig_preference_fails h s Hf)
        as (r & Hrun & [-> | (msg & ->)]).
      * exact (readAllProviders_of_missing h s s _ Hrun).
      * exact (readAllProviders_of_rejected h s s _ msg Hrun).
    + pose proof (readProvidersConfig_storage_fails h s Hf) as Hrun.
      exact (readAllProviders_of_missing h s s _ Hrun).
  - exists (builtInAt h s). split; reflexivity.
Qed.

(** [readAllProviders] depends neither on the development switch nor on the
    override: mock data never reaches the full configuration. *)
Theorem readAllProviders_ignores_mock
  (h : Host) (dev : bool) (m : option NemoProvider) (s : State) :
  outcome (readAllProviders' (withDevelopment h dev)
             {| mockProvider := m; ticks := ticks s |})
    = outcome (readAllProviders' h s) /\
  events (readAllProviders' (withDevelopment h dev)
            {| mockProvider := m; ticks := ticks s |})
    = events (readAllProviders' h s).
Proof.
  change (readAllProviders' (withDevelopment h dev))
    with (readAllProviders' h).
  destruct (readProvidersConfig_frame h s) as (r & out & Hrun & _).
  destruct (readProvidersConfig_frame h {| mockProvider := m; ticks := ticks s |})
    as (r' & out' & Hrun' & _).
  assert (Hsame : r' = r /\ out' = out).
  { revert Hrun Hrun'. unfold_reader.
    split_host; intros H1 H2;
      injection H1 as <- <-; injection H2 as <- <-; auto. }
  destruct Hsame as (-> & ->).
  unfold readAllProviders, Eff.bind, Eff.tryCatch, Eff.log, Eff.emit.
  rewrite Hrun, Hrun'.
  destruct r as [[c | ] | msg | ]; cbn; auto.
Qed.

(** The two queries agree: when the consulted source holds a configuration
    that validates, [read] returns the first provider of the configuration
    that [readAllProviders] returns whose id is its [defaultProviderId], and
    the built-in provider when there is none. *)
Theorem read_agrees_with_readAllProviders
  (h : Host) (s : State) (config : NemoProvidersConfig) :
  Persisted JSON_parse h config ->
  exists result,
    outcome (readAllProviders' h s) = Fulfilled result /\
    outcome (read' h s)
      = Fulfilled
          match findDefault (defaultProviderId result) (providers result) with
          | Some p => p
          | None => builtInAt h s
          end.
Proof.
  intros [Hh | Hh].
  - exists (normalizeIsDefault config). split.
    + pose proof (readProvidersConfig_preference h config s Hh) as Hrun.
      apply readAllProviders_of_found in Hrun. now rewrite Hrun.
    + pose proof (readFromNemo_preference h config s Hh) as Hrun.
      change (defaultProviderId (normalizeIsDefault config))
        with (defaultProviderId config).
      destruct (findDefault _ _) as [p | ].
      * destruct (read_of_found h s s _ p Hrun) as (out & ->). reflexivity.
      * destruct (read_of_missing h s s _ Hrun) as (out & ->). reflexivity.
  - exists config. split.
    + pose proof (readProvidersConfig_storage h config s Hh) as Hrun.
      apply readAllProviders_of_found in Hrun. now rewrite Hrun.
    + pose proof (readFromNemo_storage h config s Hh) as Hrun.
      destruct (findDefault _ _) as [p | ].
      * destruct (read_of_found h s s _ p Hrun) as (out & ->). reflexivity.
      * destruct (read_of_missing h s s _ Hrun) as (out & ->). reflexivity.
Qed.

(** In development mode a second [setMockProvider] replaces the override: the
    new one is the built-in default of that moment with the second set of
    keys on top, and nothing of the first call is left. *)
Theorem setMockProvider_replaces_override
  (h : Host) (first second : Partial.t) (s : State) :
  isMockLLMSettings h = true ->
  exists out,
    (setMockProvider h first ;; setMockProvider h second) s
      = (Fulfilled tt,
         {| mockProvider :=
              Some (spread (builtInAt h (later 2 s)) second);
            ticks := 4 + ticks s |},
         out).
Proof.
  intros Hdev. unfold Eff.bind.
  destruct (setMockProvider_sets h first s Hdev) as (out1 & ->).
  destruct (setMockProvider_sets h second
              {| mockProvider := Some (spread (builtInAt h s) first);
                 ticks := 2 + ticks s |} Hdev) as (out2 & ->).
  eexists. reflexivity.
Qed.

(** Nothing clears the override: once one is stored, every method of the
    class leaves one stored, and the two reads leave it as it is. *)
Theorem override_is_never_cleared
  (h : Host) (provider : Partial.t) (s : State) :
  mockProvider s <> None ->
  mockProvider (finalState (setMockProvider h provider s)) <> None /\
  mockProvider (finalState (read' h s)) = mockProvider s /\
  mockProvider (finalState (readAllProviders' h s)) = mockProvider s.
Proof.
  intros Hset. split; [ | split].
  - destruct (isMockLLMSettings h) eqn:Hdev.
    + destruct (setMockProvider_sets h provider s Hdev) as (out & ->).
      discriminate.
    + now rewrite (setMockProvider_refused h provider s Hdev).
  - destruct (read_frame h s) as (r & n & out & -> & _). reflexivity.
  - destruct (readProvidersConfig_frame h s) as (r & out & Hrun & _).
    unfold readAllProviders, Eff.bind, Eff.tryCatch, Eff.log, Eff.emit.
    rewrite Hrun. destruct r as [[c | ] | msg | ]; reflexivity.
Qed.

Lemma orDefault_nonempty (o : option string) (d : string) :
  d <> "" -> orDefault o d <> "".
Proof.
  intros Hd. unfold orDefault. destruct o as [x | ]; [ | exact Hd].
  destruct (String.eqb_spec x ""); assumption.
Qed.

(** What the two factories synthesise, for every host. The built-in
    provider satisfies the provider schema. With no override stored,
    [getMockProvider] returns a provider exactly when its type hint is no
    name inherited from [Object.prototype]: that provider satisfies the
    schema too, is flagged as default, never carries an empty API key (an
    unset or empty environment key is replaced by "mock-key"), and is built
    in exactly when it is the provider "nemo". With an inherited name as type
    hint it returns the inherited member of that name, which is no
    provider. *)
Theorem factory_providers_validate (h : Host) (s : State) :
  mockProvider s = None ->
  let hint := orDefault (MOCK_PROVIDER_TYPE h) "nemo" in
  NemoProviderSchema (untypedProvider (builtInAt h s))
    = Some (builtInAt h s) /\
  exists r s',
    getMockProvider h s = (Fulfilled r, s', []) /\
    match r with
    | Provider p =>
        ~ In hint ObjectPrototypeKeys /\
        NemoProviderSchema (untypedProvider p) = Some p /\
        isDefault p = true /\
        apiKey p <> Some "" /\
        (isBuiltIn p = true <-> id p = "nemo")
    | Inherited k => k = hint /\ In hint ObjectPrototypeKeys
    end.
Proof.
  intros Hm hint. split.
  - rewrite NemoProviderSchema_untyped. reflexivity.
  - assert (Hkey : forall o, Some (orDefault o "mock-key") <> Some "").
    { intros o H. injection H as H. revert H.
      now apply orDefault_nonempty. }
    assert (Hown : forall key, In key catalogKeys ->
                               ~ In key ObjectPrototypeKeys).
    { intros key Hin H. cbn in Hin.
      repeat (destruct Hin as [<- | Hin];
              [cbn in H;
               repeat (destruct H as [H | H]; [discriminate H | ]);
               destruct H | ]).
      destruct Hin. }
    destruct (in_dec string_dec hint catalogKeys) as [Hin | Hoff].
    + pose proof (Hown hint Hin) as Hnot. revert Hnot.
      unfold getMockProvider, Eff.bind, Eff.getMock. rewrite Hm.
      fold hint. generalize dependent hint. intros hint Hin.
      cbn in Hin.
      repeat (destruct Hin as [<- | Hin];
              [intros Hnot;
               cbn -[orDefault NemoProviderSchema untypedProvider In];
               do 2 eexists; split; [reflexivity | ];
               split; [exact Hnot | ];
               split; [rewrite NemoProviderSchema_untyped; reflexivity | ];
               split; [reflexivity | ];
               split; [try apply Hkey; try discriminate | ];
               split; intros H; first [reflexivity | discriminate H]
              | ]).
      destruct Hin.
    + rewrite (getMockProvider_off_catalog h s Hm Hoff). fold hint.
      destruct (inherited hint) eqn:Hinh.
      * do 2 eexists. split; [reflexivity | ].
        split; [reflexivity | now apply inherited_In].
      * do 2 eexists. split; [reflexivity | ].
        split; [intros H; apply inherited_In in H; congruence | ].
        split; [rewrite NemoProviderSchema_untyped; reflexivity | ].
        split; [reflexivity | ].
        split; [discriminate | ].
        split; reflexivity.
Qed.

(** How much [read] reports of a failed read. When the preference API yields
    no valid configuration, exactly one warning or error is logged before
    the built-in provider is returned. When the key-value store yields none,
    outside development mode, nothing is logged with a level: the failure is
    silent. *)
Theorem read_failure_diagnostics (h : Host) (s : State) :
  (PreferenceFails JSON_parse h ->
   List.length (diagnostics (events (read' h s))) = 1) /\
  (StorageFails JSON_parse h -> isMockLLMSettings h = false ->
   diagnostics (events (read' h s)) = []).
Proof.
  split.
  - intros [api msg Hapi Hcb
           | api cb msg Hapi Hcb Herr
           | api cb Hapi Hcb Herr Hval
           | api cb msg Hapi Hcb Herr Hval Hjson
           | api cb parsed Hapi Hcb Herr Hval Hjson Hzod];
      run_with_facts; reflexivity.
  - intros Hf Hdev.
    destruct (readFromNemo_storage_fails h s Hf) as (why & Hrun).
    rewrite (mockOrNull_production h why s Hdev) in Hrun.
    unfold read, Eff.bind, Eff.tryCatch, Eff.log, Eff.emit.
    rewrite Hrun. reflexivity.
Qed.

End ReaderFacts.

(** * Properties of the header of the side panel *)

Section HeaderFacts.

Variable zodErrorMessage : JSValue -> string.

Lemma nextConfigOf_normalizes (nextId : string) (config : NemoProvidersConfig) :
  nextConfigOf nextId config =
    normalizeIsDefault
      {| defaultProviderId := nextId; providers := providers config |}.
Proof. reflexivity. Qed.

Lemma revalidates_nextConfigOf (nextId : string)
  (config : NemoProvidersConfig) :
  forallb revalidates (providers (nextConfigOf nextId config))
    = forallb revalidates (providers config).
Proof.
  cbn. induction (providers config) as [ | p ps IH]; cbn.
  - reflexivity.
  - now rewrite IH.
Qed.

(** The listener of status messages shows a configuration only when the
    schema accepted it: after a message the configuration of the state is the
    one before, or the validated output of the one the message carries. A
    configuration that is refused leaves the one shown in place and records
    the message of the error; a message whose status is not ['success']
    changes nothing; and an error once recorded is never cleared. *)
Theorem status_listener_shows_only_validated
  (payload : JSValue) (st : HeaderState) :
  let sent := getProp (getProp payload "data") "providersConfig" in
  let st' := onWorkflowStatus zodErrorMessage payload st in
  (providersConfig st' = providersConfig st \/
   (providersConfig st' = NemoProvidersConfigSchema sent /\
    providersError st' = providersError st)) /\
  (providersConfig st' <> providersConfig st \/
   providersError st' <> providersError st ->
   truthy sent = true) /\
  (isString (getProp payload "status") "success" = false -> st' = st) /\
  (providersError st <> None -> providersError st' <> None).
Proof.
  intros sent st'. subst st'. unfold onWorkflowStatus. fold sent.
  destruct (truthy payload); cbn [andb];
    [ | repeat split; auto; intros [H | H]; now elim H].
  destruct (isString (getProp payload "status") "success"); cbn [andb];
    [ | repeat split; auto; intros [H | H]; now elim H].
  destruct (truthy (getProp payload "data")); cbn [andb];
    [ | repeat split; auto; try discriminate; intros [H | H]; now elim H].
  destruct (truthy sent);
    [destruct (NemoProvidersConfigSchema sent) as [cfg | ] | ];
    destruct (truthy (getProp (getProp payload "data") "servers")); cbn;
    repeat split; auto; try discriminate;
    intros [H | H]; now elim H.
Qed.

(** Choosing a default in the selector, for a configuration that a status
    message delivered: when none of its context windows is NaN the
    configuration with the flags recomputed for the chosen id is shown and
    sent to be saved, once, and an error is recorded only when sending fails;
    when one is NaN, nothing is sent, the configuration shown stays, and the
    message of the validation error is recorded. *)
Theorem selection_saved_unless_NaN
  (v : JSValue) (config : NemoProvidersConfig) (sendOk : bool)
  (nextId : string) (st : HeaderState) :
  NemoProvidersConfigSchema v = Some config ->
  let next := nextConfigOf nextId config in
  onSelectDefault zodErrorMessage sendOk nextId config st =
    if forallb windowIsNumber (providers config)
    then ({| providersConfig := Some next;
             providersError :=
               if sendOk then providersError st
               else Some "Failed to send save message";
             installedServers := installedServers st |},
          [next])
    else ({| providersConfig := providersConfig st;
             providersError := Some (zodErrorMessage (untypedConfig next));
             installedServers := installedServers st |},
          []).
Proof.
  intros Hv next. unfold onSelectDefault. fold next.
  rewrite NemoProvidersConfigSchema_untyped.
  unfold next at 1. rewrite revalidates_nextConfigOf.
  rewrite (validated_config_numbers v config Hv).
  destruct (forallb windowIsNumber (providers config)); [ | reflexivity].
  destruct sendOk; reflexivity.
Qed.

(** The configuration that the selector builds for an id offered by one
    option only has exactly one default provider, the one with that id, and
    keeps the ids of the providers and their order. *)
Theorem selection_of_unique_id_has_one_default
  (nextId : string) (config : NemoProvidersConfig) :
  List.length
    (filter (fun p => String.eqb (id p) nextId) (providers config)) = 1 ->
  let next := nextConfigOf nextId config in
  oneDefault next /\
  defaultProviderId next = nextId /\
  map id (providers next) = map id (providers config) /\
  (forall p, In p (providers next) -> isDefault p = String.eqb (id p) nextId).
Proof.
  intros Hone next. subst next. rewrite nextConfigOf_normalizes.
  split; [ | split; [reflexivity | split]].
  - unfold oneDefault. rewrite defaults_normalizeIsDefault.
    cbn [defaultProviderId providers].
    destruct (filter (fun p => String.eqb (id p) nextId) (providers config))
      as [ | p [ | q rest]] eqn:Hf; try discriminate Hone.
    exists (withIsDefault p true). split; [reflexivity | ].
    assert (Hin : In p (filter (fun p => String.eqb (id p) nextId)
                               (providers config)))
      by (rewrite Hf; now left).
    apply filter_In in Hin. destruct Hin as [_ Hid].
    cbn. now apply String.eqb_eq.
  - cbn. rewrite map_map. reflexivity.
  - intros p Hp.
    destruct (normalizeIsDefault_ids _ p Hp) as (q & _ & -> & ->).
    reflexivity.
Qed.

End HeaderFacts.

(** * Runs on the sample inputs *)

(** C1, counterexample: the preference holds a configuration that validates
    and whose default id "ghost" is the id of no provider. [readAllProviders]
    returns it with every flag recomputed, so that no provider at all is
    flagged as default. *)
Lemma readAllProviders_dangling_default_counterexample :
  PreferenceHolds danglingJSON danglingHost danglingConfig /\
  exists result out,
    readAllProviders danglingJSON zodText danglingHost start
      = (Fulfilled result, start, out) /\
    defaults result = [] /\
    ~ oneDefault result.
Proof.
  split.
  - eapply preference_holds with (parsed := danglingValue);
      vm_compute; reflexivity.
  - do 2 eexists. split; [vm_compute; reflexivity | ].
    split; [reflexivity | ].
    intros (p & Hp & _). discriminate Hp.
Qed.

(** C1, witness: the preference flags "p1" while "p2" is the default;
    [readAllProviders] returns "p2" as the one provider flagged. *)
Lemma readAllProviders_preference_normalizes_witness :
  PreferenceHolds staleJSON staleHost staleConfig /\
  exists result,
    outcome (readAllProviders staleJSON zodText staleHost start)
      = Fulfilled result /\
    map isDefault (providers result) = [false; true] /\
    oneDefault result.
Proof.
  assert (H : PreferenceHolds staleJSON staleHost staleConfig).
  { eapply preference_holds with (parsed := staleValue);
      vm_compute; reflexivity. }
  split; [exact H | ].
  destruct (readAllProviders_preference_normalizes
              staleJSON zodText staleHost start staleConfig H)
    as (out & result & Hrun & _ & Hps & _ & _ & Hone).
  exists result. split; [now rewrite Hrun | ].
  split; [now rewrite Hps | ].
  apply Hone. reflexivity.
Defined.



(** C3, counterexample: the preference API is present and reports an error
    while the key-value store holds a valid configuration under the same key.
    The store is not consulted and both reads end in not-found. *)
Lemma fallback_not_tried_after_error_counterexample :
  StorageHolds noJSON (hostOf false None None staleStorage) staleConfig /\
  findDefault (defaultProviderId staleConfig) (providers staleConfig)
    = Some (providerOf "p2" "Home" false) /\
  outcome (readFromNemo noJSON zodText
             (hostOf false None failingPrefs staleStorage) start)
    = Fulfilled None /\
  outcome (readProvidersConfig noJSON zodText
             (hostOf false None failingPrefs staleStorage) start)
    = Fulfilled None /\
  hostCalls (readFromNemo noJSON zodText
               (hostOf false None failingPrefs staleStorage) start)
    = [CalledGetPref PROVIDERS].
Proof.
  split.
  - eapply storage_holds with (parsed := staleValue); reflexivity.
  - repeat split; vm_compute; reflexivity.
Qed.

(** C3, witness: without the preference API the key-value store is read, under
    the key "nemo.providers", and what it holds is returned. *)
Lemma one_source_is_consulted_witness :
  StorageHolds noJSON (hostOf false None None staleStorage) staleConfig /\
  hostCalls (readFromNemo noJSON zodText
               (hostOf false None None staleStorage) start)
    = [CalledStorageGet "nemo.providers"] /\
  outcome (readProvidersConfig noJSON zodText
             (hostOf false None None staleStorage) start)
    = Fulfilled (Some staleConfig).
Proof.
  assert (H : StorageHolds noJSON (hostOf false None None staleStorage)
                staleConfig).
  { eapply storage_holds with (parsed := staleValue); reflexivity. }
  split; [exact H | ].
  destruct (one_source_is_consulted noJSON zodText
              (hostOf false None None staleStorage) start)
    as (Hcalls & _ & _ & _ & Hholds).
  split; [exact Hcalls | ].
  exact (proj1 (Hholds staleConfig H)).
Defined.

(** C6, witness: the key-value store holds a valid configuration whose
    default id "ghost" is the id of no provider; [read] returns the built-in
    provider. *)
Lemma read_dangling_default_gives_builtin_witness :
  Persisted noJSON (hostOf false None None danglingStorage) danglingConfig /\
  (forall p, In p (providers danglingConfig) ->
             id p <> defaultProviderId danglingConfig) /\
  exists out,
    read noJSON zodText (hostOf false None None danglingStorage) start
      = (Fulfilled (defaultNemoProvider "t0" "t1"),
         {| mockProvider := None; ticks := 2 |}, out).
Proof.
  assert (H : Persisted noJSON (hostOf false None None danglingStorage)
                danglingConfig).
  { right. eapply storage_holds with (parsed := danglingValue); reflexivity. }
  assert (Hd : forall p, In p (providers danglingConfig) ->
                         id p <> defaultProviderId danglingConfig).
  { intros p [<- | []]. discriminate. }
  split; [exact H | split; [exact Hd | ]].
  exact (read_dangling_default_gives_builtin noJSON zodText
           (hostOf false None None danglingStorage) start danglingConfig H Hd).
Defined.

(** C7, witness: outside development mode the call leaves the start state as
    it is and logs the warning. *)
Lemma setMockProvider_noop_outside_development_witness :
  isMockLLMSettings (hostOf false None None emptyStorage) = false /\
  setMockProvider (hostOf false None None emptyStorage) testOverride start
    = (Fulfilled tt, start,
       [entry "setMockProvider is only available in development mode"
              (Some "warning")]).
Proof.
  split; [reflexivity | ].
  exact (proj1 (setMockProvider_noop_outside_development noJSON zodText
                  (hostOf false None None emptyStorage) testOverride start
                  eq_refl)).
Defined.

(** C8, counterexample: development mode, the override [{name: "Test", type:
    "openai"}] is set, and the key-value store holds a valid configuration.
    The next [read] returns the persisted default provider "Home", not the
    override. *)
Lemma read_after_setMockProvider_counterexample :
  isMockLLMSettings (hostOf true None None staleStorage) = true /\
  exists (p : NemoProvider) s' out,
    (setMockProvider (hostOf true None None staleStorage) testOverride ;;
     read noJSON zodText (hostOf true None None staleStorage)) start
      = (Fulfilled p, s', out) /\
    name p = "Home" /\
    type p = openai /\
    isBuiltIn p = false.
Proof.
  split; [reflexivity | ].
  do 3 eexists. split; [vm_compute; reflexivity | ].
  repeat split.
Qed.

(** C8, witness: development mode, nothing stored. After the override is set,
    two reads in a row return it. *)
Lemma mock_override_served_when_storage_fails_witness :
  isMockLLMSettings (hostOf true None None emptyStorage) = true /\
  exists (p : NemoProvider) s' out,
    (setMockProvider (hostOf true None None emptyStorage) testOverride ;;
     read noJSON zodText (hostOf true None None emptyStorage) ;;
     read noJSON zodText (hostOf true None None emptyStorage)) start
      = (Fulfilled p, s', out) /\
    name p = "Test" /\ type p = openai /\ id p = "nemo" /\
    isBuiltIn p = true /\ apiKey p = None /\
    createdAt p = "t0" /\ updatedAt p = "t1".
Proof.
  split; [reflexivity | ].
  pose (h := hostOf true None None emptyStorage).
  destruct (mock_override_served_when_storage_fails noJSON zodText
              h testOverride start eq_refl)
    as (Hset & Hread & _ & Hfields).
  assert (Hf : StorageFails noJSON h) by (eapply storage_empty; reflexivity).
  specialize (Hfields eq_refl).
  destruct (setMockProvider h testOverride start) as [[r0 s0] out0] eqn:Hrun0.
  cbn [finalState fst snd] in Hset.
  assert (Hr0 : r0 = Fulfilled tt).
  { vm_compute in Hrun0. now injection Hrun0 as <- _ _. }
  destruct (Hread h s0 Hset eq_refl Hf) as (out1 & Hrun1).
  exists (spread (builtInAt h start) testOverride), s0. eexists.
  split.
  - unfold Eff.bind. fold h. rewrite Hrun0, Hr0, Hrun1, Hrun1. reflexivity.
  - rewrite Hfields. repeat split.
Defined.

(** With [MOCK_PROVIDER_TYPE = "gemini"], the catalog key, the factory returns
    the Gemini mock, whose type is the member "google_gemini". *)
Example getMockProvider_gemini :
  exists (p : NemoProvider) s',
    getMockProvider (hostOf true (Some "gemini") None emptyStorage) start
      = (Fulfilled p, s', []) /\
    id p = "mock_gemini" /\ type p = google_gemini.
Proof.
  do 2 eexists. split; [vm_compute; reflexivity | ]. split; reflexivity.
Qed.

(** The key-value store is returned as it is persisted: [readAllProviders]
    does not recompute the flags on that path. Here "p1" stays flagged while
    "p2" is the default. *)
Example readAllProviders_storage_keeps_flags :
  exists result out,
    readAllProviders noJSON zodText (hostOf false None None staleStorage) start
      = (Fulfilled result, start, out) /\
    defaultProviderId result = "p2" /\
    map (fun p => (id p, isDefault p)) (providers result)
      = [("p1", true); ("p2", false)].
Proof.
  do 2 eexists. split; [vm_compute; reflexivity | ]. split; reflexivity.
Qed.

(** ** Runs of the further properties *)

(** The provider "p1" as it validates: the string fields are those of the
    stored object and the absent [baseUrl] stays absent. *)
Lemma validated_provider_reflects_persisted_witness :
  NemoProviderSchema (providerValue "p1" "Work" true [])
    = Some (providerOf "p1" "Work" true) /\
  getProp (providerValue "p1" "Work" true []) "apiKey" = JStr "sk-live" /\
  getProp (providerValue "p1" "Work" true []) "baseUrl" = JUndefined.
Proof.
  assert (H : NemoProviderSchema (providerValue "p1" "Work" true [])
              = Some (providerOf "p1" "Work" true)) by reflexivity.
  split; [exact H | ].
  destruct (validated_provider_reflects_persisted _ _ H)
    as (_ & _ & _ & _ & _ & _ & _ & Hurl & Hkey & _).
  split; [exact Hkey | exact Hurl].
Defined.

(** A key that the schema does not declare changes nothing. *)
Lemma undeclared_keys_are_ignored_witness :
  isObject (providerValue "p1" "Work" true []) = true /\
  isObject (providerValue "p1" "Work" true [("note", JStr "mine")]) = true /\
  (forall k, In k providerKeys ->
     getProp (providerValue "p1" "Work" true []) k
       = getProp (providerValue "p1" "Work" true [("note", JStr "mine")]) k) /\
  NemoProviderSchema (providerValue "p1" "Work" true [])
    = NemoProviderSchema (providerValue "p1" "Work" true [("note", JStr "mine")]).
Proof.
  assert (H : forall k, In k providerKeys ->
     getProp (providerValue "p1" "Work" true []) k
       = getProp (providerValue "p1" "Work" true [("note", JStr "mine")]) k).
  { intros k Hk. cbn in Hk.
    repeat (destruct Hk as [<- | Hk]; [reflexivity | ]). destruct Hk. }
  split; [reflexivity | ]. split; [reflexivity | ]. split; [exact H | ].
  exact (undeclared_keys_are_ignored
           (providerValue "p1" "Work" true [])
           (providerValue "p1" "Work" true [("note", JStr "mine")])
           eq_refl eq_refl H).
Defined.

(** The configuration with stale flags validates again to itself; the one
    whose context window is the text "abc" validates once, and its output is
    refused. *)
Lemma validated_config_revalidates_unless_NaN_witness :
  NemoProvidersConfigSchema staleValue = Some staleConfig /\
  NemoProvidersConfigSchema (untypedConfig staleConfig) = Some staleConfig /\
  exists c,
    NemoProvidersConfigSchema abcWindowConfig = Some c /\
    NemoProvidersConfigSchema (untypedConfig c) = None.
Proof.
  assert (H : NemoProvidersConfigSchema staleValue = Some staleConfig)
    by reflexivity.
  split; [exact H | ].
  split; [exact (validated_config_revalidates_unless_NaN _ _ H) | ].
  destruct (NemoProvidersConfigSchema abcWindowConfig) as [c | ] eqn:Hc;
    [ | discriminate (eq_sym Hc : None = Some _) ].
  exists c. split; [reflexivity | ].
  rewrite (validated_config_revalidates_unless_NaN _ _ Hc).
  vm_compute in Hc. injection Hc as <-. reflexivity.
Defined.

(** The text "4096 tokens" is read as the number 4096. *)
Lemma contextWindow_decimal_text_witness :
  startsWithDigit " tokens" = false /\
  contextWindowSchema (JStr "4096 tokens") = Some (Some (of_Z 4096)).
Proof.
  split; [reflexivity | ].
  exact (contextWindow_decimal_text 4096 " tokens" eq_refl).
Defined.

(** Outside development mode, with a string that is not JSON in the
    key-value store, [readAllProviders] returns the built-in provider alone,
    as the default. *)
Lemma readAllProviders_falls_back_to_builtin_witness :
  (PreferenceFails noJSON (hostOf false None None malformedStorage) \/
   StorageFails noJSON (hostOf false None None malformedStorage)) /\
  (exists out,
     readAllProviders noJSON zodText
       (hostOf false None None malformedStorage) start
       = (Fulfilled {| defaultProviderId := "nemo";
                       providers := [defaultNemoProvider "t0" "t1"] |},
          {| mockProvider := None; ticks := 2 |}, out)) /\
  oneDefault {| defaultProviderId := "nemo";
                providers := [defaultNemoProvider "t0" "t1"] |}.
Proof.
  assert (H : PreferenceFails noJSON (hostOf false None None malformedStorage)
              \/ StorageFails noJSON (hostOf false None None malformedStorage)).
  { right. eapply storage_malformed with (text := "{not json");
      try reflexivity. discriminate. }
  split; [exact H | ].
  exact (readAllProviders_falls_back_to_builtin noJSON zodText
           (hostOf false None None malformedStorage) start H).
Defined.

(** With the stale configuration in the key-value store, [read] returns the
    provider "p2" that [readAllProviders] lists under the default id. *)
Lemma read_agrees_with_readAllProviders_witness :
  Persisted noJSON (hostOf false None None staleStorage) staleConfig /\
  outcome (readAllProviders noJSON zodText
             (hostOf false None None staleStorage) start)
    = Fulfilled staleConfig /\
  outcome (read noJSON zodText (hostOf false None None staleStorage) start)
    = Fulfilled (providerOf "p2" "Home" false).
Proof.
  assert (H : Persisted noJSON (hostOf false None None staleStorage)
                staleConfig).
  { right. eapply storage_holds with (parsed := staleValue); reflexivity. }
  split; [exact H | ].
  destruct (read_agrees_with_readAllProviders noJSON zodText
              (hostOf false None None staleStorage) start staleConfig H)
    as (result & Hall & Hread).
  assert (Hresult : result = staleConfig).
  { vm_compute in Hall. now injection Hall as <-. }
  subst result. split; [exact Hall | exact Hread].
Defined.

(** In development mode an empty override set after the test override leaves
    the built-in provider: the name "Test" is gone. *)
Lemma setMockProvider_replaces_override_witness :
  isMockLLMSettings (hostOf true None None emptyStorage) = true /\
  exists out,
    (setMockProvider (hostOf true None None emptyStorage) testOverride ;;
     setMockProvider (hostOf true None None emptyStorage) Partial.empty) start
      = (Fulfilled tt,
         {| mockProvider := Some (defaultNemoProvider "t2" "t3"); ticks := 4 |},
         out).
Proof.
  split; [reflexivity | ].
  exact (setMockProvider_replaces_override
           (hostOf true None None emptyStorage) testOverride Partial.empty
           start eq_refl).
Defined.

(** An override that is set stays set through a further [setMockProvider]
    and through both reads. *)
Lemma override_is_never_cleared_witness :
  mockProvider {| mockProvider := Some (providerOf "p1" "Work" true);
                  ticks := 0 |} <> None /\
  mockProvider
    (finalState
       (read noJSON zodText (hostOf true None None emptyStorage)
          {| mockProvider := Some (providerOf "p1" "Work" true);
             ticks := 0 |}))
    = Some (providerOf "p1" "Work" true).
Proof.
  assert (H : mockProvider {| mockProvider := Some (providerOf "p1" "Work" true);
                              ticks := 0 |} <> None) by discriminate.
  split; [exact H | ].
  exact (proj1 (proj2 (override_is_never_cleared noJSON zodText
                         (hostOf true None None emptyStorage) Partial.empty
                         _ H))).
Defined.

(** The Gemini mock of the factory is a value that the schema accepts; with
    "toString" as type hint the factory returns the inherited member. *)
Lemma factory_providers_validate_witness :
  mockProvider start = None /\
  (exists (p : NemoProvider) s',
     getMockProvider (hostOf true (Some "gemini") None emptyStorage) start
       = (Fulfilled p, s', []) /\
     NemoProviderSchema (untypedProvider p) = Some p /\
     isDefault p = true) /\
  (exists s',
     getMockProvider (hostOf true (Some "toString") None emptyStorage) start
       = (Fulfilled (Inherited "toString"), s', [])).
Proof.
  split; [reflexivity | split].
  - destruct (factory_providers_validate
                (hostOf true (Some "gemini") None emptyStorage) start eq_refl)
      as (_ & r & s' & Hrun & Hr).
    assert (Hp : exists p : NemoProvider, r = Provider p).
    { vm_compute in Hrun. injection Hrun as <- _. eauto. }
    destruct Hp as (p & ->).
    destruct Hr as (_ & Hvalid & Hdefault & _).
    exists p, s'. split; [exact Hrun | ]. split; [exact Hvalid | exact Hdefault].
  - destruct (factory_providers_validate
                (hostOf true (Some "toString") None emptyStorage) start eq_refl)
      as (_ & r & s' & Hrun & Hr).
    assert (Hk : r = Inherited "toString").
    { vm_compute in Hrun. now injection Hrun as <- _. }
    subst r. exists s'. exact Hrun.
Defined.

(** The stale configuration comes back from the key-value store as it is. *)
Lemma readAllProviders_storage_as_persisted_witness :
  StorageHolds noJSON (hostOf false None None staleStorage) staleConfig /\
  exists out,
    readAllProviders noJSON zodText (hostOf false None None staleStorage) start
      = (Fulfilled staleConfig, start, out).
Proof.
  assert (H : StorageHolds noJSON (hostOf false None None staleStorage)
                staleConfig).
  { eapply storage_holds with (parsed := staleValue); reflexivity. }
  split; [exact H | ].
  exact (readAllProviders_storage_as_persisted noJSON zodText _ start _ H).
Defined.

(** Three hosts without a source: no global [chrome], which [read] answers
    with the built-in provider after logging the ReferenceError; a [chrome]
    that holds no object, answered alike without an error in the log; and an
    object [chrome] without either API, on which [read] does not settle. *)
Example read_without_chrome :
  read noJSON zodText (hostWith false None Undeclared) start
    = (Fulfilled (defaultNemoProvider "t0" "t1"),
       {| mockProvider := None; ticks := 2 |},
       [ entry "Reading provider settings from Nemo preferences" None;
         entry "Failed to read settings: chrome is not defined" (Some "error");
         entry "Using default Nemo provider" None ]) /\
  outcome (read noJSON zodText (hostWith false None Nullish) start)
    = Fulfilled (Provider (defaultNemoProvider "t0" "t1")) /\
  outcome (read noJSON zodText (hostOf false None None None) start) = Pending.
Proof. repeat split. Qed.

(** Choosing "p1" in the selector of the stale configuration: the
    configuration with "p1" as the only default is shown and sent. *)
Lemma selection_saved_unless_NaN_witness :
  NemoProvidersConfigSchema staleValue = Some staleConfig /\
  onSelectDefault zodText true "p1" staleConfig
    {| providersConfig := Some staleConfig;
       providersError := None;
       installedServers := JArr [] |}
    = ({| providersConfig :=
            Some {| defaultProviderId := "p1";
                    providers := [ providerOf "p1" "Work" true;
                                   providerOf "p2" "Home" false ] |};
          providersError := None;
          installedServers := JArr [] |},
       [ {| defaultProviderId := "p1";
            providers := [ providerOf "p1" "Work" true;
                           providerOf "p2" "Home" false ] |} ]).
Proof.
  split; [reflexivity | ].
  exact (selection_saved_unless_NaN zodText staleValue staleConfig true "p1"
           {| providersConfig := Some staleConfig;
              providersError := None;
              installedServers := JArr [] |} eq_refl).
Defined.

(** In the stale configuration the id "p2" is that of one provider. *)
Lemma selection_of_unique_id_has_one_default_witness :
  List.length
    (filter (fun p => String.eqb (id p) "p2") (providers staleConfig)) = 1 /\
  oneDefault (nextConfigOf "p2" staleConfig).
Proof.
  split; [reflexivity | ].
  exact (proj1 (selection_of_unique_id_has_one_default "p2" staleConfig
                  eq_refl)).
Defined.

(** A tab and a space before "1.5" change nothing. *)
Lemma leading_white_space_is_skipped_witness :
  trimStart (String (ascii_of_nat 9) " ") = EmptyString /\
  temperatureSchema (JStr (String (ascii_of_nat 9) " 1.5"))
    = temperatureSchema (JStr "1.5").
Proof.
  split; [reflexivity | ].
  exact (proj2 (leading_white_space_is_skipped
                  (String (ascii_of_nat 9) " ") "1.5" eq_refl)).
Defined.
